(** * Tick-data cleaning and OHLCV aggregation (main.py)

    A shallow embedding of the validation and aggregation pipeline of
    [main.py]: [clean_and_validate_row], [process_file], [parse_interval],
    [get_interval_input] and [aggregate_ohlcv], followed by the properties
    stated about them.

    Conventions.
    - A Python [float] is an IEEE 754 binary64 value, [spec_float] of the
      Standard Library, compared with [SFltb] and [SFleb] (so a NaN compares
      false with everything).
    - A Python [int] is a [Z].
    - A naive [datetime] is the number of microseconds since
      0001-01-01 00:00:00, a [timedelta] a number of microseconds.
    - A raised exception is the [Raise] case of [result].
    - The library parsers [datetime.strptime], [float] and [int] are the
      fields of the class [Runtime]; [cpython] is an instance for ASCII
      input, used where a property is about concrete strings. *)

From Stdlib Require Import ZArith Lia Bool List Ascii String SpecFloat.
From Stdlib Require Import Sorted Permutation.
From stdpp Require Import base gmap strings.

Import ListNotations.
Open Scope string_scope.
Open Scope list_scope.
Open Scope Z_scope.

(** ** Exceptions *)

Inductive exn : Type :=
  | ValueError
  | OverflowError
  | RuntimeError
  | EOFError.

Inductive result (A : Type) : Type :=
  | Ok (a : A)
  | Raise (e : exn).

Arguments Ok {A} a.
Arguments Raise {A} e.

Definition bind {A B : Type} (m : result A) (k : A -> result B) : result B :=
  match m with
  | Ok a => k a
  | Raise e => Raise e
  end.

Notation "x <- m ;; k" := (bind m (fun x => k))
  (at level 100, m at next level, right associativity).

(** ** Floats *)

Abbreviation float := spec_float.

Definition prec : Z := 53.
Definition emax : Z := 1024.

Definition neg_inf : float := S754_infinity true.
Definition pos_inf : float := S754_infinity false.

(** [float(z)] for an integer literal of the source ([0], [100]). *)
Definition float_of_Z (z : Z) : float := binary_normalize prec emax z 0 false.

Arguments float_of_Z : simpl never.

Definition flt (x y : float) : bool := SFltb x y.
Definition fle (x y : float) : bool := SFleb x y.

(** Python's [max(a, b)] keeps [a] unless [b > a]; [min(a, b)] keeps [a]
    unless [b < a]. *)
Definition py_max (a b : float) : float := if flt a b then b else a.
Definition py_min (a b : float) : float := if flt b a then b else a.

Definition is_nan (x : float) : bool :=
  match x with S754_nan => true | _ => false end.


(** ** Dates and durations *)

Abbreviation datetime := Z.
Abbreviation timedelta := Z.

Definition us_per_second : Z := 1000000.
Definition us_per_day : Z := 86400 * us_per_second.

(** [date.max.toordinal()] is 3652059: the last representable instant is
    9999-12-31 23:59:59.999999. *)
Definition max_ordinal : Z := 3652059.
Definition datetime_max : datetime := max_ordinal * us_per_day - 1.

(** [timedelta(days=.., hours=.., minutes=.., seconds=..)]: the arguments
    are summed exactly; the normalised day count must have magnitude at most
    999999999, else [OverflowError]. *)
Definition mk_timedelta (days hours minutes seconds : Z) : result timedelta :=
  let total := (((days * 24 + hours) * 60 + minutes) * 60 + seconds)
               * us_per_second in
  let d := total / us_per_day in
  if (d <? -999999999) || (999999999 <? d) then Raise OverflowError
  else Ok total.

(** [datetime + timedelta]: [OverflowError] when the result leaves the
    years 1..9999. *)
Definition datetime_add (t : datetime) (d : timedelta) : result datetime :=
  let r := t + d in
  if (r <? 0) || (datetime_max <? r) then Raise OverflowError else Ok r.

(** ** The library parsers *)

Class Runtime : Type := {
  (** [datetime.strptime(s, "%Y-%m-%d %H:%M:%S.%f")]; [None] is ValueError *)
  strptime : string -> option datetime;
  (** [datetime.strptime(s, "%Y-%m-%d %H:%M:%S")]; [None] is ValueError *)
  strptime_seconds : string -> option datetime;
  (** [float(s)]; [None] is ValueError *)
  py_float : string -> option float;
  (** [int(s)]; [None] is ValueError *)
  py_int : string -> option Z;
  (** [s.strip()] *)
  py_strip : string -> string;
  (** [s.lower()] *)
  py_lower : string -> string
}.

(** ** Data cleaning and validation *)

Abbreviation row := (list string).

(** A cleaned row [(timestamp, price, size)]. *)
Definition clean_row : Type := string * float * Z.

Definition ts_of (r : clean_row) : string := fst (fst r).
Definition price_of (r : clean_row) : float := snd (fst r).
Definition size_of (r : clean_row) : Z := snd r.

Inductive reason : Type :=
  | IncorrectColumnCount
  | MissingTimestamp
  | InvalidTimestampFormat
  | DuplicateTimestamp
  | InvalidPriceValue
  | NonPositivePrice
  | PriceTooLow
  | InvalidSizeValue
  | NegativeSize.

(** The text appended to [errors] for each reason. *)
Definition message (r : reason) : string :=
  match r with
  | IncorrectColumnCount => "Incorrect number of columns"
  | MissingTimestamp => "Missing timestamp"
  | InvalidTimestampFormat => "Invalid timestamp format"
  | DuplicateTimestamp => "Duplicate timestamp"
  | InvalidPriceValue => "Invalid price value"
  | NonPositivePrice => "Price must be positive"
  | PriceTooLow => "Price too low (below 100)"
  | InvalidSizeValue => "Invalid size value"
  | NegativeSize => "Size must be non-negative"
  end.

Section Cleaning.
Context {RT : Runtime}.

(** [clean_and_validate_row(row, unique_timestamps)].  The third
    component is [unique_timestamps] after the call: the set is mutated
    in place by [unique_timestamps.add(timestamp)]. *)
Definition clean_and_validate_row (r : row) (unique_timestamps : gset string)
  : option clean_row * list string * gset string :=
  match r with
  | [timestamp; price; size] =>
    if String.eqb timestamp "" then
      (None, [message MissingTimestamp], unique_timestamps)
    else
      match strptime timestamp with
      | None => (None, [message InvalidTimestampFormat], unique_timestamps)
      | Some _ =>
        if bool_decide (timestamp ∈ unique_timestamps) then
          (None, [message DuplicateTimestamp], unique_timestamps)
        else
          let unique_timestamps := {[ timestamp ]} ∪ unique_timestamps in
          match py_float price with
          | None => (None, [message InvalidPriceValue], unique_timestamps)
          | Some price =>
            if fle price (float_of_Z 0) then
              (None, [message NonPositivePrice], unique_timestamps)
            else if flt price (float_of_Z 100) then
              (None, [message PriceTooLow], unique_timestamps)
            else
              match py_int size with
              | None => (None, [message InvalidSizeValue], unique_timestamps)
              | Some size =>
                if size <? 0 then
                  (None, [message NegativeSize], unique_timestamps)
                else
                  (Some (timestamp, price, size), [], unique_timestamps)
              end
          end
      end
  | _ => (None, [message IncorrectColumnCount], unique_timestamps)
  end.

(** One entry of [results]: [(cleaned_row, errors, row)]. *)
Definition file_result : Type := option clean_row * list string * row.

(** The loop of [process_file] over the rows that [read_tick_data]
    yields, threading the set. *)
Fixpoint process_rows (rows : list row) (unique_timestamps : gset string)
  : list file_result :=
  match rows with
  | [] => []
  | r :: rest =>
    let '(cleaned_row, errors, unique_timestamps) :=
      clean_and_validate_row r unique_timestamps in
    (cleaned_row, errors, r) :: process_rows rest unique_timestamps
  end.

(** [read_tick_data] on the rows that [csv.reader] gives for the file:
    [next(csv_reader)] drops the header row; on a file without any row
    its StopIteration, raised inside a generator, becomes RuntimeError. *)
Definition read_tick_data (csv_rows : list row) : result (list row) :=
  match csv_rows with
  | [] => Raise RuntimeError
  | _header :: rows => Ok rows
  end.

(** [unique_timestamps] after the loop over [rows]. *)
Fixpoint timestamps_after (rows : list row) (unique_timestamps : gset string)
  : gset string :=
  match rows with
  | [] => unique_timestamps
  | r :: rest =>
    timestamps_after rest (snd (clean_and_validate_row r unique_timestamps))
  end.

(** [process_file]: a fresh empty set for every file. *)
Definition process_file (csv_rows : list row) : result (list file_result) :=
  rows <- read_tick_data csv_rows ;;
  Ok (process_rows rows ∅).

(** The fold of [main] that collects [cleaned_data] from the per-file
    results of [pool.map(process_file, csv_files)]. *)
Definition cleaned_data (all_results : list (list file_result))
  : list clean_row :=
  flat_map
    (fun file_results =>
       flat_map
         (fun fr : file_result =>
            match fst (fst fr) with Some c => [c] | None => [] end)
         file_results)
    all_results.
End Cleaning.

(** ** Interval strings *)

(** [c in s] for a one-character [c]. *)
Fixpoint contains (c : ascii) (s : string) : bool :=
  match s with
  | EmptyString => false
  | String c' s' => if Ascii.eqb c' c then true else contains c s'
  end.

(** [s.split(c)] for a one-character separator. *)
Fixpoint split (c : ascii) (s : string) : list string :=
  match s with
  | EmptyString => [EmptyString]
  | String c' s' =>
    if Ascii.eqb c' c then EmptyString :: split c s'
    else
      match split c s' with
      | p :: ps => String c' p :: ps
      | [] => [String c' EmptyString]
      end
  end.

Section Interval.
Context {RT : Runtime}.

(** [int(s)] inside a [try]: ValueError when the text is no integer. *)
Definition int_or_raise (s : string) : result Z :=
  match py_int s with
  | Some z => Ok z
  | None => Raise ValueError
  end.

(** One [if 'u' in interval_str:] block of [parse_interval]: the value of
    the component and the rest of the string, or the default and the
    string unchanged. *)
Definition component (u : ascii) (interval_str : string)
  : result (Z * string) :=
  if contains u interval_str then
    let parts := split u interval_str in
    n <- int_or_raise (nth 0 parts "") ;;
    Ok (n, if (1 <? Z.of_nat (length parts)) then nth 1 parts "" else "")
  else Ok (0, interval_str).

Definition parse_interval (interval_str : string) : result timedelta :=
  d <- component "d" interval_str ;;
  let '(days, interval_str) := d in
  h <- component "h" interval_str ;;
  let '(hours, interval_str) := h in
  m <- component "m" interval_str ;;
  let '(minutes, interval_str) := m in
  s <- component "s" interval_str ;;
  let '(seconds, _) := s in
  mk_timedelta days hours minutes seconds.

(** [get_interval_input], reading the lines of [stdin] one [input()] at a
    time: the interval and the lines left unread.  [input()] at the end
    of the input raises EOFError; only ValueError is caught. *)
Fixpoint get_interval_input (stdin : list string)
  : result (timedelta * list string) :=
  match stdin with
  | [] => Raise EOFError
  | line :: stdin =>
    let interval_str := py_lower (py_strip line) in
    match parse_interval interval_str with
    | Ok interval =>
      if interval =? 0 then get_interval_input stdin
      else Ok (interval, stdin)
    | Raise ValueError => get_interval_input stdin
    | Raise e => Raise e
    end
  end.
End Interval.

(** ** OHLCV aggregation *)

Record ohlcv : Type := {
  open : option float;
  high : float;
  low : float;
  close : option float;
  volume : Z
}.

(** [{'open': None, 'high': -inf, 'low': inf, 'close': None, 'volume': 0}] *)
Definition fresh_ohlcv : ohlcv :=
  {| open := None; high := neg_inf; low := pos_inf; close := None;
     volume := 0 |}.

(** The five assignments at the end of the loop body. *)
Definition update_ohlcv (cur : ohlcv) (price : float) (size : Z) : ohlcv :=
  {| open := match open cur with None => Some price | Some o => Some o end;
     high := py_max (high cur) price;
     low := py_min (low cur) price;
     close := Some price;
     volume := volume cur + size |}.

(** An insertion-ordered [dict] keyed by [datetime]. *)
Abbreviation table := (list (datetime * ohlcv)).

(** [d[k] = v]: an existing key keeps its position, a new one goes last. *)
Fixpoint dict_set (k : datetime) (v : ohlcv) (d : table) : table :=
  match d with
  | [] => [(k, v)]
  | (k', v') :: d' =>
    if k =? k' then (k', v) :: d' else (k', v') :: dict_set k v d'
  end.

(** [data.sort(key=lambda x: x[0])]: the stable sort by the timestamp
    text, compared by code points. *)
Fixpoint insert_row (x : clean_row) (l : list clean_row) : list clean_row :=
  match l with
  | [] => [x]
  | y :: l' =>
    if String.ltb (ts_of y) (ts_of x) then y :: insert_row x l'
    else x :: y :: l'
  end.

Definition sort_rows (data : list clean_row) : list clean_row :=
  fold_right insert_row [] data.

(** The local variables of [aggregate_ohlcv] that the loop changes. *)
Record agg_state : Type := {
  ohlcv_data : table;
  interval_start : option datetime;
  current_ohlcv : ohlcv
}.

Definition agg_init : agg_state :=
  {| ohlcv_data := []; interval_start := None; current_ohlcv := fresh_ohlcv |}.

Section Aggregation.
Context {RT : Runtime}.
Variable interval : timedelta.
Variables start_time end_time : datetime.

(** The loop body after the test of the window, for a record at the
    instant [timestamp]: open the first interval, store the bar of an
    interval that has ended, update the current bar. *)
Definition agg_fold (st : agg_state) (timestamp : datetime)
    (price : float) (size : Z) : result agg_state :=
  let istart :=
    match interval_start st with
    | None => timestamp
    | Some s => s
    end in
  bound <- datetime_add istart interval ;;
  let '(tbl, istart, cur) :=
    if bound <=? timestamp then
      (dict_set istart (current_ohlcv st) (ohlcv_data st),
       timestamp, fresh_ohlcv)
    else (ohlcv_data st, istart, current_ohlcv st) in
  Ok {| ohlcv_data := tbl;
        interval_start := Some istart;
        current_ohlcv := update_ohlcv cur price size |}.

(** One iteration of [for timestamp, price, size in data]. *)
Definition agg_step (st : agg_state) (r : clean_row) : result agg_state :=
  let '(timestamp, price, size) := r in
  match strptime timestamp with
  | None => Raise ValueError
  | Some timestamp =>
    if (timestamp <? start_time) || (end_time <? timestamp) then Ok st
    else agg_fold st timestamp price size
  end.

Fixpoint agg_loop (st : agg_state) (data : list clean_row)
  : result agg_state :=
  match data with
  | [] => Ok st
  | r :: data => st <- agg_step st r ;; agg_loop st data
  end.


End Aggregation.

(** [if current_ohlcv['open'] is not None: ...] after the loop.  [open] is
    set only in an iteration that has set [interval_start] before (see
    [open_interval_start]), so the key is a [datetime]. *)
Definition agg_finish (st : agg_state) : table :=
  match open (current_ohlcv st), interval_start st with
  | Some _, Some s => dict_set s (current_ohlcv st) (ohlcv_data st)
  | _, _ => ohlcv_data st
  end.

(** [aggregate_ohlcv(data, interval, start_time, end_time)]: the list
    [data] as the call leaves it (sorted in place) and the returned
    dictionary or the raised exception. *)
Definition aggregate_ohlcv {RT : Runtime} (data : list clean_row)
    (interval : timedelta) (start_time end_time : datetime)
  : list clean_row * result table :=
  let data := sort_rows data in
  (data,
   st <- agg_loop interval start_time end_time agg_init data ;;
   Ok (agg_finish st)).

(** ** The interface of [main] *)

Section Interface.
Context {RT : Runtime}.

(** [get_datetime_input(prompt)] on the lines of [stdin]. *)
Fixpoint get_datetime_input (stdin : list string)
  : result (datetime * list string) :=
  match stdin with
  | [] => Raise EOFError
  | line :: stdin =>
    match strptime_seconds (py_strip line) with
    | Some t => Ok (t, stdin)
    | None => get_datetime_input stdin
    end
  end.

(** [main] from the three prompts on: [None] when the start time is not
    before the end time (nothing is aggregated or written), else the
    dictionary handed to [ohlcv_to_csv]. *)
Definition main_interface (cleaned : list clean_row) (stdin : list string)
  : result (option table) :=
  i <- get_interval_input stdin ;;
  let '(interval, stdin) := i in
  s <- get_datetime_input stdin ;;
  let '(start_time, stdin) := s in
  e <- get_datetime_input stdin ;;
  let '(end_time, stdin) := e in
  if end_time <=? start_time then Ok None
  else
    ohlcv <- snd (aggregate_ohlcv cleaned interval start_time end_time) ;;
    Ok (Some ohlcv).
End Interface.

(** ** A model of the library parsers on ASCII text *)

Module CPython.

Definition is_space (c : ascii) : bool :=
  let n := Z.of_nat (nat_of_ascii c) in
  ((9 <=? n) && (n <=? 13)) || ((28 <=? n) && (n <=? 32)).

Definition digit_val (c : ascii) : option Z :=
  let n := Z.of_nat (nat_of_ascii c) in
  if (48 <=? n) && (n <=? 57) then Some (n - 48) else None.

Definition lower_ascii (c : ascii) : ascii :=
  let n := nat_of_ascii c in
  if (65 <=? Z.of_nat n) && (Z.of_nat n <=? 90)
  then ascii_of_nat (n + 32) else c.

Fixpoint lower (s : string) : string :=
  match s with
  | EmptyString => EmptyString
  | String c s' => String (lower_ascii c) (lower s')
  end.

Fixpoint lstrip (s : string) : string :=
  match s with
  | String c s' => if is_space c then lstrip s' else s
  | EmptyString => EmptyString
  end.

(** The text without its trailing white space. *)
Fixpoint rstrip (s : string) : string :=
  match s with
  | EmptyString => EmptyString
  | String c s' =>
    match rstrip s' with
    | EmptyString => if is_space c then EmptyString else String c EmptyString
    | r => String c r
    end
  end.

Definition strip (s : string) : string := rstrip (lstrip s).

(** A digit part [digit (["_"] digit)*] at the start of [s]: its value
    on top of [acc], its number of digits on top of [n] and the rest of
    the text.  An underscore belongs to it only between two digits. *)
Fixpoint digitpart (s : string) (acc : Z) (n : nat) : Z * nat * string :=
  match s with
  | String c s' =>
    match digit_val c with
    | Some d => digitpart s' (acc * 10 + d) (S n)
    | None =>
      if Ascii.eqb c "_" then
        match s', n with
        | String c' _, S _ =>
          match digit_val c' with
          | Some _ => digitpart s' acc n
          | None => (acc, n, s)
          end
        | _, _ => (acc, n, s)
        end
      else (acc, n, s)
    end
  | EmptyString => (acc, n, s)
  end.

(** An optional sign at the start of [s]: [true] for a minus. *)
Definition sign (s : string) : bool * string :=
  match s with
  | String "-" s' => (true, s')
  | String "+" s' => (false, s')
  | _ => (false, s)
  end.

(** [int(s)] in base 10. *)
Definition int (s : string) : option Z :=
  let '(neg, body) := sign (strip s) in
  match digitpart body 0 0 with
  | (v, S _, EmptyString) => Some (if neg then - v else v)
  | _ => None
  end.

(** The binary64 value nearest to [m * 10 ^ e], ties to even. *)
Definition float_of_decimal (neg : bool) (m : Z) (e : Z) : float :=
  match m with
  | Z0 => S754_zero neg
  | Zneg _ => S754_nan
  | Zpos p =>
    if 0 <=? e then
      let v := m * 10 ^ e in
      binary_normalize prec emax (if neg then - v else v) 0 neg
    else
      match 10 ^ (- e) with
      | Zpos q =>
        SFdiv prec emax (S754_finite neg p 0) (S754_finite false q 0)
      | _ => S754_nan
      end
  end.

(** The exponent part [("e" | "E") ["+" | "-"] digitpart] at the start of
    [s], when there is one. *)
Definition exponent (s : string) : option (Z * string) :=
  match s with
  | EmptyString => Some (0, s)
  | String c s' =>
    if Ascii.eqb (lower_ascii c) "e" then
      let '(neg, body) := sign s' in
      match digitpart body 0 0 with
      | (v, S _, rest) => Some (if neg then - v else v, rest)
      | _ => None
      end
    else Some (0, s)
  end.

(** [float(s)]: an optional sign, then [inf], [infinity] or [nan] in any
    case, or a decimal number with an optional fraction and exponent. *)
Definition float (s : string) : option float :=
  let '(neg, body) := sign (strip s) in
  let word := lower body in
  if String.eqb word "inf" || String.eqb word "infinity" then
    Some (S754_infinity neg)
  else if String.eqb word "nan" then Some S754_nan
  else
    let '(ip, ni, rest) := digitpart body 0 0 in
    let '(m, nf, rest) :=
      match rest with
      | String "." rest' =>
        let '(m, n, rest'') := digitpart rest' ip 0 in (m, n, rest'')
      | _ => (ip, 0%nat, rest)
      end in
    match (ni + nf)%nat with
    | O => None
    | S _ =>
      match exponent rest with
      | Some (e, EmptyString) =>
        Some (float_of_decimal neg m (e - Z.of_nat nf))
      | _ => None
      end
    end.

(** *** [datetime.strptime(s, "%Y-%m-%d %H:%M:%S.%f")] *)

(** At most [n] digits at the start of [s]: their value on top of [acc],
    how many there are, and the rest. *)
Fixpoint digits (n : nat) (s : string) (acc : Z) (k : nat)
  : Z * nat * string :=
  match n, s with
  | S n', String c s' =>
    match digit_val c with
    | Some d => digits n' s' (acc * 10 + d) (S k)
    | None => (acc, k, s)
    end
  | _, _ => (acc, k, s)
  end.

(** A field of one or two digits with a value in [lo..hi]. *)
Definition field (lo hi : Z) (s : string) : option (Z * string) :=
  match digits 2 s 0 0 with
  | (v, S _, rest) =>
    if (lo <=? v) && (v <=? hi) then Some (v, rest) else None
  | _ => None
  end.

(** The day of the month: as [field], or a blank and one digit [1..9]. *)
Definition day_field (s : string) : option (Z * string) :=
  match field 1 31 s with
  | Some r => Some r
  | None =>
    match s with
    | String " " (String c rest) =>
      match digit_val c with
      | Some d => if 1 <=? d then Some (d, rest) else None
      | None => None
      end
    | _ => None
    end
  end.

Definition expect (c : ascii) (s : string) : option string :=
  match s with
  | String c' s' => if Ascii.eqb c' c then Some s' else None
  | EmptyString => None
  end.

(** One or more white-space characters. *)
Definition spaces (s : string) : option string :=
  match s with
  | String c s' => if is_space c then Some (lstrip s') else None
  | EmptyString => None
  end.

Definition is_leap (y : Z) : bool :=
  ((y mod 4 =? 0) && negb (y mod 100 =? 0)) || (y mod 400 =? 0).

Definition days_in_month (y m : Z) : Z :=
  if m =? 2 then (if is_leap y then 29 else 28)
  else if (m =? 4) || (m =? 6) || (m =? 9) || (m =? 11) then 30
  else 31.

Definition days_before_year (y : Z) : Z :=
  let p := y - 1 in p * 365 + p / 4 - p / 100 + p / 400.

Fixpoint days_before_month (y : Z) (m : nat) : Z :=
  match m with
  | O => 0
  | S m' =>
    match m' with
    | O => 0
    | S _ => days_before_month y m' + days_in_month y (Z.of_nat m')
    end
  end.

(** [datetime(y, m, d, hh, mm, ss, us)]; ValueError outside the calendar. *)
Definition mk_datetime (y m d hh mm ss us : Z) : option datetime :=
  if (1 <=? y) && (y <=? 9999) && (1 <=? m) && (m <=? 12)
     && (1 <=? d) && (d <=? days_in_month y m)
     && (0 <=? hh) && (hh <=? 23) && (0 <=? mm) && (mm <=? 59)
     && (0 <=? ss) && (ss <=? 59) && (0 <=? us) && (us <=? 999999)
  then
    Some ((days_before_year y + days_before_month y (Z.to_nat m) + (d - 1))
          * us_per_day
          + ((hh * 60 + mm) * 60 + ss) * us_per_second + us)
  else None.

Definition opt_bind {A B : Type} (o : option A) (k : A -> option B)
  : option B :=
  match o with Some a => k a | None => None end.

(** The part [%Y-%m-%d %H:%M:%S] at the start of [s]: the six fields
    and the rest of the text. *)
Definition date_and_time (s : string)
  : option (Z * Z * Z * Z * Z * Z * string) :=
  match digits 4 s 0 0 with
  | (y, 4%nat, s) =>
    opt_bind (expect "-" s) (fun s =>
    opt_bind (field 1 12 s) (fun '(m, s) =>
    opt_bind (expect "-" s) (fun s =>
    opt_bind (day_field s) (fun '(d, s) =>
    opt_bind (spaces s) (fun s =>
    opt_bind (field 0 23 s) (fun '(hh, s) =>
    opt_bind (expect ":" s) (fun s =>
    opt_bind (field 0 59 s) (fun '(mm, s) =>
    opt_bind (expect ":" s) (fun s =>
    opt_bind (field 0 61 s) (fun '(ss, s) =>
    Some (y, m, d, hh, mm, ss, s)))))))))))
  | _ => None
  end.

(** Format ["%Y-%m-%d %H:%M:%S.%f"]: one to six digits of fraction,
    padded with zeros on the right, and nothing after them. *)
Definition strptime_f (s : string) : option datetime :=
  opt_bind (date_and_time s) (fun '(y, m, d, hh, mm, ss, s) =>
  opt_bind (expect "." s) (fun s =>
  match digits 6 s 0 0 with
  | (f, S k, EmptyString) =>
    mk_datetime y m d hh mm ss (f * 10 ^ Z.of_nat (5 - k))
  | _ => None
  end)).

(** Format ["%Y-%m-%d %H:%M:%S"]. *)
Definition strptime_s (s : string) : option datetime :=
  opt_bind (date_and_time s) (fun '(y, m, d, hh, mm, ss, s) =>
  match s with
  | EmptyString => mk_datetime y m d hh mm ss 0
  | _ => None
  end).

End CPython.

#[global] Instance cpython : Runtime := {
  strptime := CPython.strptime_f;
  strptime_seconds := CPython.strptime_s;
  py_float := CPython.float;
  py_int := CPython.int;
  py_strip := CPython.strip;
  py_lower := CPython.lower
}.

(** ** What a bar should hold *)

Section Bars.
Context {RT : Runtime}.
Variable interval : timedelta.
Variables start_time end_time : datetime.

(** The instant a cleaned row was recorded at. *)
Definition time_of (r : clean_row) : option datetime := strptime (ts_of r).

(** Within the window, both ends included. *)
Definition in_window (r : clean_row) : bool :=
  match time_of r with
  | Some t => (start_time <=? t) && (t <=? end_time)
  | None => false
  end.

(** Within the interval that starts at [k]. *)
Definition in_interval (k : datetime) (r : clean_row) : bool :=
  match time_of r with
  | Some t => (k <=? t) && (t <? k + interval)
  | None => false
  end.

(** The records assigned to the interval that starts at [k]: those of the
    window that fall within the interval, in the order of processing. *)
Definition assigned (k : datetime) (data : list clean_row) : list clean_row :=
  List.filter (fun r => in_window r && in_interval k r) (sort_rows data).

Definition is_max (h : float) (ps : list float) : Prop :=
  In h ps /\ forall p, In p ps -> fle p h = true.

Definition is_min (l : float) (ps : list float) : Prop :=
  In l ps /\ forall p, In p ps -> fle l p = true.

(** [a] is not later than [b]. *)
Definition not_later (a b : clean_row) : Prop :=
  exists ta tb, time_of a = Some ta /\ time_of b = Some tb /\ ta <= tb.




(** The order of the timestamp texts agrees with the order of the
    instants they denote, as it does for zero-padded texts. *)
Definition chronological (data : list clean_row) : Prop :=
  forall a b ta tb,
    In a data -> In b data ->
    time_of a = Some ta -> time_of b = Some tb ->
    String.ltb (ts_of a) (ts_of b) = true -> ta <= tb.

(** The bar that the loop accumulates over the records [g], from [bar]. *)
Definition accumulate (bar : ohlcv) (g : list clean_row) : ohlcv :=
  fold_left (fun b r => update_ohlcv b (price_of r) (size_of r)) g bar.

(** The state of the loop after the records [done] of the window, for a
    positive interval and records in chronological order: the current bar
    holds the records of the current interval, which started at the
    instant of one of them and ends after all of them, and every sealed
    bar holds the records of an interval that ended before. *)
Definition agg_inv (done : list clean_row) (st : agg_state) : Prop :=
  match interval_start st with
  | None => done = [] /\ st = agg_init
  | Some k =>
    (exists r, In r done /\ time_of r = Some k)
    /\ current_ohlcv st
       = accumulate fresh_ohlcv (List.filter (in_interval k) done)
    /\ List.filter (in_interval k) done <> []
    /\ (forall r t, In r done -> time_of r = Some t -> t < k + interval)
    /\ (forall k' b, In (k', b) (ohlcv_data st) ->
          k' + interval <= k
          /\ b = accumulate fresh_ohlcv (List.filter (in_interval k') done)
          /\ List.filter (in_interval k') done <> [])
  end.
End Bars.

(** [a] may stand before [b] in the sorted list. *)
Definition ts_le (a b : clean_row) : Prop :=
  String.ltb (ts_of b) (ts_of a) = false.

(** ** The checks of the validator, one by one *)

Section Checks.
Context {RT : Runtime}.

(** The fixed order in which a row is checked. *)
Definition check_order : list reason :=
  [IncorrectColumnCount; MissingTimestamp; InvalidTimestampFormat;
   DuplicateTimestamp; InvalidPriceValue; NonPositivePrice; PriceTooLow;
   InvalidSizeValue; NegativeSize].

(** The condition under which the source reports each reason, read on
    its own: the three fields are taken by position, and a test on a
    parsed value holds only when the text parses. *)
Definition fails (rs : reason) (r : row) (seen : gset string) : bool :=
  let timestamp := nth 0 r "" in
  let price := nth 1 r "" in
  let size := nth 2 r "" in
  match rs with
  | IncorrectColumnCount => negb (Nat.eqb (length r) 3)
  | MissingTimestamp => String.eqb timestamp ""
  | InvalidTimestampFormat =>
    match strptime timestamp with None => true | Some _ => false end
  | DuplicateTimestamp => bool_decide (timestamp ∈ seen)
  | InvalidPriceValue =>
    match py_float price with None => true | Some _ => false end
  | NonPositivePrice =>
    match py_float price with
    | Some p => fle p (float_of_Z 0)
    | None => false
    end
  | PriceTooLow =>
    match py_float price with
    | Some p => flt p (float_of_Z 100)
    | None => false
    end
  | InvalidSizeValue =>
    match py_int size with None => true | Some _ => false end
  | NegativeSize =>
    match py_int size with Some n => n <? 0 | None => false end
  end.

(** The first reason of [check_order] whose condition holds. *)
Definition first_failure (r : row) (seen : gset string) : option reason :=
  List.find (fun rs => fails rs r seen) check_order.
End Checks.

(** ** Data loading *)

(** [s.startswith(p)] *)
Fixpoint startswith (p s : string) : bool :=
  match p, s with
  | EmptyString, _ => true
  | String a p', String b s' => Ascii.eqb a b && startswith p' s'
  | String _ _, EmptyString => false
  end.

(** [s.endswith(q)]: [q] is [s] or the end of what follows its first
    character. *)
Fixpoint endswith (q s : string) : bool :=
  if String.eqb s q then true
  else
    match s with
    | EmptyString => false
    | String _ s' => endswith q s'
    end.

(** [os.path.join(root, file)] on a POSIX system. *)
Definition path_join (root file : string) : string :=
  if startswith "/" file then file
  else if String.eqb root "" || endswith "/" root then (root ++ file)%string
  else (root ++ "/" ++ file)%string.

(** The test of [find_csv_files] on a file name. *)
Definition is_tick_file (file : string) : bool :=
  startswith "ctg_tick_" file && endswith ".csv" file.

(** [find_csv_files(directory)], on the triples [(root, dirs, files)] that
    [os.walk(directory)] yields: the paths yielded, in order. *)
Fixpoint find_csv_files (walk : list (string * list string * list string))
  : list string :=
  match walk with
  | [] => []
  | (root, _dirs, files) :: walk' =>
    map (path_join root) (List.filter is_tick_file files)
    ++ find_csv_files walk'
  end.

(** ** The counters of [main] *)

Record tally : Type := {
  total_rows : Z;
  valid_rows : Z;
  invalid_rows : Z;
  error_log : list (row * list string);
  cleaned : list clean_row
}.

Definition tally_init : tally :=
  {| total_rows := 0; valid_rows := 0; invalid_rows := 0;
     error_log := []; cleaned := [] |}.

(** The body of the inner loop of [main]: a cleaned row, a tuple of three
    fields, is true; [None] is false. *)
Definition tally_row (acc : tally) (fr : file_result) : tally :=
  let '(cleaned_row, errors, original_row) := fr in
  match cleaned_row with
  | Some c =>
    {| total_rows := total_rows acc + 1;
       valid_rows := valid_rows acc + 1;
       invalid_rows := invalid_rows acc;
       error_log := error_log acc;
       cleaned := cleaned acc ++ [c] |}
  | None =>
    {| total_rows := total_rows acc + 1;
       valid_rows := valid_rows acc;
       invalid_rows := invalid_rows acc + 1;
       error_log := error_log acc ++ [(original_row, errors)];
       cleaned := cleaned acc |}
  end.

(** The two nested loops of [main] over [all_results]. *)
Definition main_collect (all_results : list (list file_result)) : tally :=
  fold_left (fun acc file_results => fold_left tally_row file_results acc)
    all_results tally_init.

Section Main.
Context {RT : Runtime}.


End Main.

(** ** Interval strings made of parts *)

(** None of the four unit letters occurs in [a]. *)
Definition unit_free (a : string) : bool :=
  negb (contains "d" a || contains "h" a || contains "m" a || contains "s" a).

(** A number text followed by its unit letter, or nothing. *)
Definition piece (u : ascii) (o : option string) : string :=
  match o with
  | Some a => (a ++ String u EmptyString)%string
  | None => EmptyString
  end.

Definition piece_ok (o : option string) : bool :=
  match o with
  | Some a => unit_free a
  | None => true
  end.

Section Pieces.
Context {RT : Runtime}.

(** The value of a part: that of its number text, 0 without one. *)
Definition piece_value (o : option string) : result Z :=
  match o with
  | Some a => int_or_raise a
  | None => Ok 0
  end.

(** A line that the interval prompt passes over: its duration is zero, or
    a component is no integer. *)
Definition passed_over (line : string) : Prop :=
  parse_interval (py_lower (py_strip line)) = Ok 0
  \/ parse_interval (py_lower (py_strip line)) = Raise ValueError.
End Pieces.

(** ** Tables *)

Definition keys (tbl : table) : list datetime := map fst tbl.

Definition total_volume (tbl : table) : Z :=
  fold_right Z.add 0 (map (fun kb => volume (snd kb)) tbl).

(** Consecutive keys are at least [interval] apart. *)
Definition spaced (interval : timedelta) (tbl : table) : Prop :=
  StronglySorted (fun a b => fst a + interval <= fst b) tbl.

Section Singles.
Context {RT : Runtime}.

(** The bar of one record. *)
Definition single_bar (r : clean_row) : ohlcv :=
  update_ohlcv fresh_ohlcv (price_of r) (size_of r).

(** One bar for every record, under the instant of the record, stored in
    the order of the list. *)
Definition bar_per_record (l : list clean_row) : table :=
  fold_left
    (fun tbl r =>
       match time_of r with
       | Some t => dict_set t (single_bar r) tbl
       | None => tbl
       end)
    l [].

(** The state of the loop after the records [done] of the window, for an
    interval that is not positive and records in chronological order: the
    current bar holds the last record alone, and storing it gives one bar
    for every record. *)
Definition agg_inv_single (done : list clean_row) (st : agg_state) : Prop :=
  match last done with
  | None => st = agg_init
  | Some r =>
    exists k,
      time_of r = Some k /\ interval_start st = Some k
      /\ current_ohlcv st = single_bar r
      /\ dict_set k (single_bar r) (ohlcv_data st) = bar_per_record done
  end.
End Singles.

(** The sum of the sizes of the records [l]. *)
Definition total_size (l : list clean_row) : Z :=
  fold_right Z.add 0 (map size_of l).

(** ** More sample data *)

Module MoreSamples.
(** The two bars of the three ticks of [Samples.ticks]. *)
Definition two_bars : table :=
  [(63839698205000000,
    {| open := Some (float_of_Z 100); high := float_of_Z 105;
       low := float_of_Z 100; close := Some (float_of_Z 105);
       volume := 3 |});
   (63839698270000000,
    {| open := Some (float_of_Z 102); high := float_of_Z 102;
       low := float_of_Z 102; close := Some (float_of_Z 102);
       volume := 3 |})].

(** One bar for each of the three ticks. *)
Definition three_bars : table :=
  [(63839698205000000,
    {| open := Some (float_of_Z 100); high := float_of_Z 100;
       low := float_of_Z 100; close := Some (float_of_Z 100);
       volume := 1 |});
   (63839698250000000,
    {| open := Some (float_of_Z 105); high := float_of_Z 105;
       low := float_of_Z 105; close := Some (float_of_Z 105);
       volume := 2 |});
   (63839698270000000,
    {| open := Some (float_of_Z 102); high := float_of_Z 102;
       low := float_of_Z 102; close := Some (float_of_Z 102);
       volume := 3 |})].

(** The longest interval that a [timedelta] holds. *)
Definition longest : timedelta := 999999999 * us_per_day.
End MoreSamples.

(** ** Sample data *)

Module Samples.
(** Two rows of one file with the same timestamp. *)
Definition header : row := ["Timestamp"; "Price"; "Size"].

(** A row with a price below the floor, one priced at the floor, and a
    later row with the timestamp of the first. *)
Definition row_low : row := ["2024-01-01 09:30:01.000000"; "99.5"; "1"].
Definition row_floor : row := ["2024-01-01 09:30:02.000000"; "100.0"; "4"].
Definition row_again : row := ["2024-01-01 09:30:01.000000"; "120"; "2"].

(** An instant of 2024-01-01. *)
Definition jan1 (hh mm ss : Z) : datetime :=
  match CPython.mk_datetime 2024 1 1 hh mm ss 0 with
  | Some t => t
  | None => 0
  end.

Definition minute : timedelta := 60 * us_per_second.

(** Three ticks within two minutes. *)
Definition ticks : list clean_row :=
  [("2024-01-01 09:30:05.000000", float_of_Z 100, 1);
   ("2024-01-01 09:30:50.000000", float_of_Z 105, 2);
   ("2024-01-01 09:31:10.000000", float_of_Z 102, 3)].



(** Two ticks whose hours are written [09] and [9]. *)
Definition unpadded_file : list row :=
  [header; ["2024-01-01 09:30:30.000000"; "100"; "1"];
           ["2024-01-01 9:30:10.000000"; "105"; "2"]].

Definition unpadded_ticks : list clean_row :=
  [("2024-01-01 09:30:30.000000", float_of_Z 100, 1);
   ("2024-01-01 9:30:10.000000", float_of_Z 105, 2)].
End Samples.

(** * Properties *)

(** ** The order of floats *)

Ltac float_cases :=
  unfold flt, fle, SFltb, SFleb, SFcompare;
  repeat match goal with
         | x : spec_float |- _ => destruct x
         | b : bool |- _ => destruct b
         end;
  simpl; intros; try reflexivity; try discriminate;
  change (Pos.compare_cont Eq) with Pos.compare in *;
  repeat match goal with
         | H : context [Z.compare ?a ?b] |- _ => destruct (Z.compare_spec a b)
         | |- context [Z.compare ?a ?b] => destruct (Z.compare_spec a b)
         | H : context [Pos.compare ?a ?b] |- _ =>
           destruct (Pos.compare_spec a b)
         | |- context [Pos.compare ?a ?b] => destruct (Pos.compare_spec a b)
         end;
  simpl in *; subst; try reflexivity; try discriminate; try lia.

Lemma fle_refl x : is_nan x = false -> fle x x = true.
Proof. float_cases. Qed.

Lemma flt_fle x y : flt x y = true -> fle x y = true.
Proof. float_cases. Qed.

Lemma not_flt_fle x y :
  is_nan x = false -> is_nan y = false -> flt x y = false -> fle y x = true.
Proof. float_cases. Qed.

Lemma fle_trans x y z : fle x y = true -> fle y z = true -> fle x z = true.
Proof. float_cases. Qed.

Lemma flt_not_nan x y : flt x y = true -> is_nan x = false /\ is_nan y = false.
Proof. float_cases; auto. Qed.

Lemma float_of_Z_0 : float_of_Z 0 = S754_zero false.
Proof. vm_compute. reflexivity. Qed.

Lemma float_of_Z_100 :
  float_of_Z 100 = S754_finite false 7036874417766400 (-46).
Proof. vm_compute. reflexivity. Qed.

(** Below the floor, "not [<= 0]" and "[> 0]" say the same. *)
Lemma positive_below_floor p :
  flt p (float_of_Z 100) = true ->
  fle p (float_of_Z 0) = false <-> flt (float_of_Z 0) p = true.
Proof.
  rewrite float_of_Z_0, float_of_Z_100.
  unfold flt, fle, SFltb, SFleb, SFcompare.
  destruct p as [ s | s | | s m e ]; try destruct s; cbv beta iota;
    intros H; try discriminate H; split; intros H';
    try reflexivity; discriminate H'.
Qed.

(** ** Validation of one row *)

Section CleaningFacts.
Context {RT : Runtime}.

Lemma message_inj (a b : reason) : message a = message b -> a = b.
Proof. destruct a, b; simpl; intros H; try reflexivity; discriminate H. Qed.

(** The set only grows, and by the row's own timestamp at most. *)
Lemma clean_and_validate_row_set (r : row) (seen : gset string) :
  let seen' := snd (clean_and_validate_row r seen) in
  seen' = seen
  \/ exists ts pr sz, r = [ts; pr; sz] /\ seen' = {[ ts ]} ∪ seen.
Proof.
  unfold clean_and_validate_row.
  destruct r as [|ts [|pr [|sz [|x r]]]]; simpl; try now left.
  destruct (String.eqb ts ""); simpl; try now left.
  destruct (strptime ts); simpl; try now left.
  case_bool_decide; simpl; try now left.
  right; exists ts, pr, sz; split; [reflexivity|].
  destruct (py_float pr) as [p|]; [|reflexivity].
  destruct (fle p _); [reflexivity|].
  destruct (flt p _); [reflexivity|].
  destruct (py_int sz) as [n|]; [|reflexivity].
  destruct (n <? 0); reflexivity.
Qed.

Lemma clean_and_validate_row_mono (r : row) (seen : gset string) :
  seen ⊆ snd (clean_and_validate_row r seen).
Proof.
  destruct (clean_and_validate_row_set r seen) as [->|(ts & pr & sz & _ & ->)].
  - reflexivity.
  - apply union_subseteq_r.
Qed.

Lemma timestamps_after_mono (rows : list row) (seen : gset string) :
  seen ⊆ timestamps_after rows seen.
Proof.
  revert seen; induction rows as [|r rows IH]; intros seen; simpl.
  - reflexivity.
  - etransitivity; [apply clean_and_validate_row_mono | apply IH].
Qed.

Lemma process_rows_app (a b : list row) (seen : gset string) :
  process_rows (a ++ b) seen
  = process_rows a seen ++ process_rows b (timestamps_after a seen).
Proof.
  revert seen; induction a as [|r a IH]; intros seen; simpl.
  - reflexivity.
  - destruct (clean_and_validate_row r seen) as [[c e] seen'] eqn:E; simpl.
    now rewrite IH.
Qed.

(** A row whose timestamp is in the set is a duplicate, whatever its
    price and size. *)
Lemma duplicate_rejected (ts pr sz : string) (seen : gset string) t :
  ts <> "" -> strptime ts = Some t -> ts ∈ seen ->
  clean_and_validate_row [ts; pr; sz] seen
  = (None, [message DuplicateTimestamp], seen).
Proof.
  intros Hne Hp Hin. unfold clean_and_validate_row.
  destruct (String.eqb_spec ts "") as [->|_]; [congruence|].
  rewrite Hp. now rewrite bool_decide_eq_true_2.
Qed.
End CleaningFacts.

(** The goal for a row that a check has rejected: no record, one message,
    which is that of the first failing check. *)
Ltac rejected :=
  split;
  [ right; eexists; now repeat split
  | split; [simpl; lia | intros H; now destruct H] ].

Section Claims_validation.
Context {RT : Runtime}.

(** C3.  For every raw row and every duplicate set,
    [clean_and_validate_row] returns either one cleaned record with an
    empty error list, or no record with an error list of exactly one
    element, the message of one of the nine reasons; that reason is the
    first one, in the fixed order of the checks, whose condition holds, and
    a record is returned exactly when none holds. *)
Theorem validation_single_outcome (r : row) (seen : gset string) :
  let '(res, errs, _) := clean_and_validate_row r seen in
  ((exists c, res = Some c /\ errs = [] /\ first_failure r seen = None)
   \/ (exists rs, res = None /\ errs = [message rs]
                 /\ first_failure r seen = Some rs))
  /\ (length errs <= 1)%nat
  /\ (res <> None -> errs = []).
Proof.
  unfold clean_and_validate_row, first_failure.
  destruct r as [|ts [|pr [|sz [|x r]]]];
    try (split; [right; exists IncorrectColumnCount; now repeat split
                | split; [simpl; lia | intros H; now destruct H]]).
  cbn [List.find check_order fails nth length Nat.eqb negb].
  destruct (String.eqb ts ""); [rejected|].
  destruct (strptime ts); [|rejected].
  destruct (bool_decide (ts ∈ seen)); [rejected|].
  destruct (py_float pr) as [p|]; [|rejected].
  destruct (fle p _); [rejected|].
  destruct (flt p _); [rejected|].
  destruct (py_int sz) as [n|]; [|rejected].
  destruct (n <? 0); [rejected|].
  split; [left; eexists; now repeat split | split; [simpl; lia | reflexivity]].
Qed.

(** The checks on the timestamp, once passed, leave the checks on price
    and size, with the timestamp already in the set. *)
Lemma clean_and_validate_row_fresh (ts pr sz : string) (seen : gset string) t :
  ts <> "" -> strptime ts = Some t -> ts ∉ seen ->
  clean_and_validate_row [ts; pr; sz] seen
  = let seen' := {[ ts ]} ∪ seen in
    match py_float pr with
    | None => (None, [message InvalidPriceValue], seen')
    | Some p =>
      if fle p (float_of_Z 0) then (None, [message NonPositivePrice], seen')
      else if flt p (float_of_Z 100) then (None, [message PriceTooLow], seen')
      else
        match py_int sz with
        | None => (None, [message InvalidSizeValue], seen')
        | Some n =>
          if n <? 0 then (None, [message NegativeSize], seen')
          else (Some (ts, p, n), [], seen')
        end
    end.
Proof.
  intros Hne Hp Hin. unfold clean_and_validate_row.
  destruct (String.eqb_spec ts "") as [->|_]; [congruence|].
  rewrite Hp. now rewrite bool_decide_eq_false_2.
Qed.

(** C7.  For a row that passes the checks on its timestamp and whose
    price parses to [p]: the row is rejected as too low exactly when
    [0 < p < 100]; and when [p] is exactly 100.0 and the size is a
    non-negative integer, the row is accepted. *)
Theorem price_floor_inclusive
    (ts pr sz : string) (seen : gset string) (t : datetime) (p : float) :
  ts <> "" -> strptime ts = Some t -> ts ∉ seen -> py_float pr = Some p ->
  (snd (fst (clean_and_validate_row [ts; pr; sz] seen))
     = [message PriceTooLow]
   <-> flt (float_of_Z 0) p = true /\ flt p (float_of_Z 100) = true)
  /\ (p = float_of_Z 100 ->
      forall n, py_int sz = Some n -> 0 <= n ->
      clean_and_validate_row [ts; pr; sz] seen
      = (Some (ts, p, n), [], {[ ts ]} ∪ seen)).
Proof.
  intros Hne Hp Hin Hf.
  rewrite (clean_and_validate_row_fresh ts pr sz seen t Hne Hp Hin), Hf.
  cbv zeta. split.
  - destruct (fle p (float_of_Z 0)) eqn:Hle.
    + split; [intros H; discriminate H|].
      intros [H0 H100]. apply positive_below_floor in H100.
      apply H100 in H0. congruence.
    + destruct (flt p (float_of_Z 100)) eqn:Hlt.
      * split; [intros _|reflexivity].
        split; [|reflexivity]. now apply positive_below_floor.
      * split; [|intros [_ H]; discriminate H].
        destruct (py_int sz) as [n|]; [destruct (n <? 0)|];
          intros H; discriminate H.
  - intros -> n Hn Hpos. rewrite Hn.
    replace (fle (float_of_Z 100) (float_of_Z 0)) with false
      by (vm_compute; reflexivity).
    replace (flt (float_of_Z 100) (float_of_Z 100)) with false
      by (vm_compute; reflexivity).
    destruct (Z.ltb_spec n 0); [lia | reflexivity].
Qed.

(** A row is accepted only with a timestamp that the set did not hold. *)
Lemma accepted_fresh (r : row) (seen : gset string) (c : clean_row) :
  fst (fst (clean_and_validate_row r seen)) = Some c -> ts_of c ∉ seen.
Proof.
  unfold clean_and_validate_row.
  destruct r as [|ts [|pr [|sz [|x r]]]]; try discriminate.
  destruct (String.eqb ts ""); [discriminate|].
  destruct (strptime ts); [|discriminate].
  case_bool_decide; [discriminate|].
  destruct (py_float pr) as [p|]; [|discriminate].
  destruct (fle p _); [discriminate|].
  destruct (flt p _); [discriminate|].
  destruct (py_int sz) as [n|]; [|discriminate].
  destruct (n <? 0); [discriminate|].
  cbn [fst]. intros [= <-]. assumption.
Qed.

(** No cleaned record carries a timestamp that was in the set before. *)
Lemma process_rows_fresh (rows : list row) (seen : gset string) c e r :
  In (Some c, e, r) (process_rows rows seen) -> ts_of c ∉ seen.
Proof.
  revert seen; induction rows as [|r0 rows IH]; intros seen; simpl.
  - intros [].
  - pose proof (accepted_fresh r0 seen) as Hacc.
    pose proof (clean_and_validate_row_mono r0 seen) as Hmono.
    destruct (clean_and_validate_row r0 seen) as [[c0 e0] seen'].
    cbn [fst snd] in *. intros [H|H].
    + injection H as -> _ _. now apply Hacc.
    + apply IH in H. intros Hin. apply H. now apply Hmono.
Qed.



(** C9.  A row with a non-empty, well-formed timestamp that the set does
    not hold yet leaves the timestamp in the set whatever becomes of its
    price and size; a later row of the file with that timestamp is then a
    duplicate; and when the first row was rejected, no cleaned record of
    the file carries the timestamp. *)
Theorem timestamp_recorded_before_price_and_size
    (ts pr sz : string) (seen : gset string) (t : datetime) :
  ts <> "" -> strptime ts = Some t -> ts ∉ seen ->
  snd (clean_and_validate_row [ts; pr; sz] seen) = {[ ts ]} ∪ seen
  /\ (forall between pr' sz',
        exists before,
          process_rows ([ts; pr; sz] :: between ++ [[ts; pr'; sz']]) seen
          = before ++ [(None, [message DuplicateTimestamp], [ts; pr'; sz'])]
          /\ length before = S (length between))
  /\ (fst (fst (clean_and_validate_row [ts; pr; sz] seen)) = None ->
      forall rows c e r,
        In (Some c, e, r) (process_rows ([ts; pr; sz] :: rows) seen) ->
        ts_of c <> ts).
Proof.
  intros Hne Hp Hin.
  assert (Hset : snd (clean_and_validate_row [ts; pr; sz] seen)
                 = {[ ts ]} ∪ seen).
  { rewrite (clean_and_validate_row_fresh ts pr sz seen t Hne Hp Hin).
    cbv zeta. destruct (py_float pr) as [p|]; [|reflexivity].
    destruct (fle p _); [reflexivity|]. destruct (flt p _); [reflexivity|].
    destruct (py_int sz) as [n|]; [|reflexivity].
    destruct (n <? 0); reflexivity. }
  split; [exact Hset|]. split.
  - intros between pr' sz'. cbn [process_rows].
    destruct (clean_and_validate_row [ts; pr; sz] seen) as [[c e] seen']
      eqn:E.
    cbn [snd] in Hset. subst seen'.
    rewrite process_rows_app. cbn [process_rows].
    rewrite (duplicate_rejected ts pr' sz' _ t Hne Hp).
    + eexists ((c, e, [ts; pr; sz]) :: process_rows between _).
      split; [reflexivity|]. cbn [length]. f_equal.
      clear. generalize ({[ ts ]} ∪ seen). 
      induction between as [|r b IH]; intros s0; cbn [process_rows length].
      * reflexivity.
      * destruct (clean_and_validate_row r s0) as [[c0 e0] s1].
        cbn [length]. now rewrite IH.
    + apply (timestamps_after_mono between). apply elem_of_union_l.
      now apply elem_of_singleton.
  - intros Hnone rows c e r. cbn [process_rows].
    destruct (clean_and_validate_row [ts; pr; sz] seen) as [[c0 e0] seen']
      eqn:E.
    cbn [fst snd] in Hset, Hnone. subst seen' c0. intros [H|H].
    + discriminate H.
    + apply process_rows_fresh in H. intros Heq. apply H.
      apply elem_of_union_l. now apply elem_of_singleton.
Qed.
End Claims_validation.

(** ** Sorting by timestamp *)

Lemma ltb_asym (x y : string) : String.ltb x y = true -> String.ltb y x = false.
Proof.
  unfold String.ltb. rewrite (String.compare_antisym y x).
  destruct (String.compare x y); simpl; congruence.
Qed.

Lemma insert_row_In (x a : clean_row) (l : list clean_row) :
  In x (insert_row a l) <-> x = a \/ In x l.
Proof.
  induction l as [|y l IH]; simpl.
  - intuition congruence.
  - destruct (String.ltb (ts_of y) (ts_of a)); simpl; [rewrite IH|];
      intuition congruence.
Qed.

Lemma insert_row_permutation (a : clean_row) (l : list clean_row) :
  Permutation (insert_row a l) (a :: l).
Proof.
  induction l as [|y l IH]; simpl; [reflexivity|].
  destruct (String.ltb (ts_of y) (ts_of a)); [|reflexivity].
  rewrite IH. apply perm_swap.
Qed.

(** The sort rearranges the list and nothing else. *)
Lemma sort_rows_permutation (data : list clean_row) :
  Permutation (sort_rows data) data.
Proof.
  induction data as [|a data IH]; simpl; [reflexivity|].
  rewrite insert_row_permutation. now constructor.
Qed.

Lemma sort_rows_In (x : clean_row) (data : list clean_row) :
  In x (sort_rows data) <-> In x data.
Proof.
  induction data as [|a data IH]; simpl; [reflexivity|].
  rewrite insert_row_In, IH. intuition congruence.
Qed.

Lemma insert_row_sorted (a : clean_row) (l : list clean_row) :
  Sorted ts_le l -> Sorted ts_le (insert_row a l).
Proof.
  induction l as [|y l IH]; simpl; intros Hs.
  - repeat constructor.
  - destruct (String.ltb (ts_of y) (ts_of a)) eqn:E.
    + inversion Hs as [|? ? Hs' Hhd]; subst.
      constructor; [now apply IH|].
      destruct l as [|z l]; simpl.
      * constructor. unfold ts_le. now apply ltb_asym.
      * destruct (String.ltb (ts_of z) (ts_of a)).
        -- inversion Hhd; subst. now constructor.
        -- constructor. unfold ts_le. now apply ltb_asym.
    + constructor; [assumption|]. now constructor.
Qed.

Lemma sort_rows_sorted (data : list clean_row) : Sorted ts_le (sort_rows data).
Proof.
  induction data as [|a data IH]; simpl; [constructor|].
  now apply insert_row_sorted.
Qed.

(** A sorted list is left as it is. *)
Lemma sort_rows_id (l : list clean_row) : Sorted ts_le l -> sort_rows l = l.
Proof.
  induction l as [|a l IH]; simpl; intros Hs; [reflexivity|].
  inversion Hs as [|? ? Hs' Hhd]; subst. rewrite (IH Hs').
  destruct l as [|y l]; simpl; [reflexivity|].
  inversion Hhd as [|? ? Hle]; subst. unfold ts_le in Hle. now rewrite Hle.
Qed.

Lemma sort_rows_idempotent (data : list clean_row) :
  sort_rows (sort_rows data) = sort_rows data.
Proof. apply sort_rows_id, sort_rows_sorted. Qed.

(** C8.  A second run of [aggregate_ohlcv], on the list as the first run
    left it and with the same interval and window, leaves the list as it
    is and gives the same outcome as the first; and so does a second run on
    the list as it was. *)
Theorem aggregate_ohlcv_idempotent {RT : Runtime}
    (data : list clean_row) (interval : timedelta)
    (start_time end_time : datetime) :
  let first_run := aggregate_ohlcv data interval start_time end_time in
  aggregate_ohlcv (fst first_run) interval start_time end_time = first_run
  /\ sort_rows (fst first_run) = fst first_run
  /\ aggregate_ohlcv data interval start_time end_time = first_run.
Proof.
  cbv zeta. unfold aggregate_ohlcv. cbn [fst].
  rewrite sort_rows_idempotent. repeat split.
Qed.

(** C1.  The three ticks of 09:30:05, 09:30:50 and 09:31:10, with an
    interval of one minute and the window from 09:30:00 to 09:32:00, give
    two bars: at 09:30:05 open 100, high 105, low 100, close 105, volume 3;
    at 09:31:10 open, high, low and close 102, volume 3.  The prompt reads
    the same interval and window from ["1m"] and the two times. *)
Theorem sample_two_bars :
  let bars :=
    [(Samples.jan1 9 30 5,
      {| open := Some (float_of_Z 100); high := float_of_Z 105;
         low := float_of_Z 100; close := Some (float_of_Z 105);
         volume := 3 |});
     (Samples.jan1 9 31 10,
      {| open := Some (float_of_Z 102); high := float_of_Z 102;
         low := float_of_Z 102; close := Some (float_of_Z 102);
         volume := 3 |})] in
  aggregate_ohlcv (RT := cpython) Samples.ticks Samples.minute
    (Samples.jan1 9 30 0) (Samples.jan1 9 32 0)
  = (Samples.ticks, Ok bars)
  /\ main_interface (RT := cpython) Samples.ticks
       ["1m"; "2024-01-01 09:30:00"; "2024-01-01 09:32:00"]
     = Ok (Some bars).
Proof. split; vm_compute; reflexivity. Qed.

(** ** The bar accumulated over a list of records *)

Lemma fle_neg_inf (p : float) : fle p neg_inf = true -> p = neg_inf.
Proof. unfold neg_inf. float_cases. Qed.

Lemma fle_pos_inf (p : float) : fle pos_inf p = true -> p = pos_inf.
Proof. unfold pos_inf. float_cases. Qed.

Lemma py_max_cases (a b : float) : py_max a b = a \/ py_max a b = b.
Proof. unfold py_max. destruct (flt a b); auto. Qed.

Lemma py_min_cases (a b : float) : py_min a b = a \/ py_min a b = b.
Proof. unfold py_min. destruct (flt b a); auto. Qed.

Lemma py_max_upper (a b : float) :
  is_nan a = false -> is_nan b = false ->
  fle a (py_max a b) = true /\ fle b (py_max a b) = true.
Proof.
  intros Ha Hb. unfold py_max. destruct (flt a b) eqn:E; split.
  - now apply flt_fle.
  - now apply fle_refl.
  - now apply fle_refl.
  - now apply not_flt_fle.
Qed.

Lemma py_min_lower (a b : float) :
  is_nan a = false -> is_nan b = false ->
  fle (py_min a b) a = true /\ fle (py_min a b) b = true.
Proof.
  intros Ha Hb. unfold py_min. destruct (flt b a) eqn:E; split.
  - now apply flt_fle.
  - now apply fle_refl.
  - now apply fle_refl.
  - now apply not_flt_fle.
Qed.

Lemma py_max_not_nan (a b : float) :
  is_nan a = false -> is_nan b = false -> is_nan (py_max a b) = false.
Proof. intros Ha Hb. now destruct (py_max_cases a b) as [-> | ->]. Qed.

Lemma py_min_not_nan (a b : float) :
  is_nan a = false -> is_nan b = false -> is_nan (py_min a b) = false.
Proof. intros Ha Hb. now destruct (py_min_cases a b) as [-> | ->]. Qed.

Lemma accumulate_cons (b : ohlcv) (r : clean_row) (g : list clean_row) :
  accumulate b (r :: g)
  = accumulate (update_ohlcv b (price_of r) (size_of r)) g.
Proof. reflexivity. Qed.


Lemma accumulate_close (b : ohlcv) (g : list clean_row) :
  close (accumulate b g)
  = match last g with Some r => Some (price_of r) | None => close b end.
Proof.
  revert b; induction g as [|r g IH]; intros b; [reflexivity|].
  rewrite accumulate_cons, IH. destruct g as [|r' g]; [reflexivity|].
  change (last (r :: r' :: g)) with (last (r' :: g)).
  destruct (last (r' :: g)) eqn:E; [reflexivity|].
  apply last_None in E. discriminate E.
Qed.

Lemma accumulate_open (b : ohlcv) (g : list clean_row) :
  open (accumulate b g)
  = match open b with
    | Some o => Some o
    | None => option_map price_of (head g)
    end.
Proof.
  revert b; induction g as [|r g IH]; intros b.
  - cbn. now destruct (open b).
  - rewrite accumulate_cons, IH. cbn. now destruct (open b).
Qed.

(** [high] ends as the old [high] or one of the prices, not below any. *)
Lemma accumulate_high (b : ohlcv) (g : list clean_row) :
  is_nan (high b) = false ->
  (forall r, In r g -> is_nan (price_of r) = false) ->
  let h := high (accumulate b g) in
  (h = high b \/ In h (map price_of g))
  /\ is_nan h = false
  /\ fle (high b) h = true
  /\ forall p, In p (map price_of g) -> fle p h = true.
Proof.
  revert b; induction g as [|r g IH]; intros b Hb Hg; cbv zeta.
  - cbn. repeat split; [now left | assumption | now apply fle_refl |].
    intros p [].
  - rewrite accumulate_cons.
    assert (Hr : is_nan (price_of r) = false) by (apply Hg; now left).
    destruct (py_max_upper (high b) (price_of r) Hb Hr) as [U1 U2].
    specialize (IH (update_ohlcv b (price_of r) (size_of r))).
    cbn [high update_ohlcv] in IH.
    destruct IH as (Hin & Hnan & Hle & Hall).
    { now apply py_max_not_nan. }
    { intros x Hx. apply Hg. now right. }
    repeat split.
    + destruct Hin as [Hin|Hin]; [|right; now right].
      rewrite Hin. destruct (py_max_cases (high b) (price_of r)) as [-> | ->];
        [now left | right; now left].
    + exact Hnan.
    + eapply fle_trans; eassumption.
    + intros p [<-|Hp]; [eapply fle_trans; eassumption | now apply Hall].
Qed.

(** [low] ends as the old [low] or one of the prices, not above any. *)
Lemma accumulate_low (b : ohlcv) (g : list clean_row) :
  is_nan (low b) = false ->
  (forall r, In r g -> is_nan (price_of r) = false) ->
  let l := low (accumulate b g) in
  (l = low b \/ In l (map price_of g))
  /\ is_nan l = false
  /\ fle l (low b) = true
  /\ forall p, In p (map price_of g) -> fle l p = true.
Proof.
  revert b; induction g as [|r g IH]; intros b Hb Hg; cbv zeta.
  - cbn. repeat split; [now left | assumption | now apply fle_refl |].
    intros p [].
  - rewrite accumulate_cons.
    assert (Hr : is_nan (price_of r) = false) by (apply Hg; now left).
    destruct (py_min_lower (low b) (price_of r) Hb Hr) as [U1 U2].
    specialize (IH (update_ohlcv b (price_of r) (size_of r))).
    cbn [low update_ohlcv] in IH.
    destruct IH as (Hin & Hnan & Hle & Hall).
    { now apply py_min_not_nan. }
    { intros x Hx. apply Hg. now right. }
    repeat split.
    + destruct Hin as [Hin|Hin]; [|right; now right].
      rewrite Hin. destruct (py_min_cases (low b) (price_of r)) as [-> | ->];
        [now left | right; now left].
    + exact Hnan.
    + eapply fle_trans; eassumption.
    + intros p [<-|Hp]; [eapply fle_trans; eassumption | now apply Hall].
Qed.

(** From the initial bar and over at least one record, without a NaN:
    [high] is the largest price and [low] the smallest. *)
Lemma accumulate_extremes (g : list clean_row) :
  g <> [] ->
  (forall r, In r g -> is_nan (price_of r) = false) ->
  is_max (high (accumulate fresh_ohlcv g)) (map price_of g)
  /\ is_min (low (accumulate fresh_ohlcv g)) (map price_of g).
Proof.
  intros Hne Hg. destruct g as [|r g]; [contradiction|].
  destruct (accumulate_high fresh_ohlcv (r :: g) eq_refl Hg)
    as (Hh & _ & _ & Hhall).
  destruct (accumulate_low fresh_ohlcv (r :: g) eq_refl Hg)
    as (Hl & _ & _ & Hlall).
  split; split; try assumption.
  - destruct Hh as [Hh|Hh]; [|exact Hh]. left.
    specialize (Hhall (price_of r) (or_introl eq_refl)).
    rewrite Hh in Hhall |- *. cbn [high fresh_ohlcv] in *.
    now apply fle_neg_inf.
  - destruct Hl as [Hl|Hl]; [|exact Hl]. left.
    specialize (Hlall (price_of r) (or_introl eq_refl)).
    rewrite Hl in Hlall |- *. cbn [low fresh_ohlcv] in *.
    now apply fle_pos_inf.
Qed.

(** ** The loop of the aggregation *)

Section AggregationFacts.
Context {RT : Runtime}.
Variable interval : timedelta.
Variables start_time end_time : datetime.

#[local] Abbreviation step := (agg_step interval start_time end_time).
#[local] Abbreviation loop := (agg_loop interval start_time end_time).
#[local] Abbreviation inside := (in_window start_time end_time).
#[local] Abbreviation within := (in_interval interval).
#[local] Abbreviation inv := (agg_inv interval).

(** A record outside the window leaves the state as it is. *)
Lemma agg_step_outside (st : agg_state) (r : clean_row) (t : datetime) :
  time_of r = Some t -> t < start_time \/ end_time < t ->
  step st r = Ok st.
Proof.
  destruct r as [[ts p] n]. unfold time_of, agg_step. cbn [ts_of fst].
  intros -> H.
  destruct (Z.ltb_spec t start_time), (Z.ltb_spec end_time t);
    try reflexivity; lia.
Qed.

(** A record within the window goes into the current bar, after the bar
    of an interval that has ended was stored. *)
Lemma agg_step_inside (st : agg_state) (r : clean_row) (t : datetime) :
  time_of r = Some t -> start_time <= t <= end_time ->
  step st r
  = let k := match interval_start st with None => t | Some k => k end in
    bound <- datetime_add k interval ;;
    Ok (if bound <=? t then
          {| ohlcv_data := dict_set k (current_ohlcv st) (ohlcv_data st);
             interval_start := Some t;
             current_ohlcv :=
               update_ohlcv fresh_ohlcv (price_of r) (size_of r) |}
        else
          {| ohlcv_data := ohlcv_data st;
             interval_start := Some k;
             current_ohlcv :=
               update_ohlcv (current_ohlcv st) (price_of r) (size_of r) |}).
Proof.
  destruct r as [[ts p] n]. unfold time_of, agg_step, agg_fold.
  cbn [ts_of price_of size_of fst snd]. intros -> H.
  destruct (Z.ltb_spec t start_time); [lia|].
  destruct (Z.ltb_spec end_time t); [lia|]. cbn [orb]. cbv zeta.
  destruct (datetime_add _ interval) as [bound|e]; [|reflexivity].
  cbn [bind]. now destruct (bound <=? t).
Qed.

Lemma inside_spec (r : clean_row) :
  inside r = true <->
  exists t, time_of r = Some t /\ start_time <= t <= end_time.
Proof.
  unfold in_window. destruct (time_of r) as [t|].
  - rewrite andb_true_iff, !Z.leb_le. split.
    + intros H. now exists t.
    + intros (t' & [= <-] & H). exact H.
  - split; [discriminate | intros (t & H & _); discriminate H].
Qed.

Lemma within_spec (k : datetime) (r : clean_row) :
  within k r = true <->
  exists t, time_of r = Some t /\ k <= t < k + interval.
Proof.
  unfold in_interval. destruct (time_of r) as [t|].
  - rewrite andb_true_iff, Z.leb_le, Z.ltb_lt. split.
    + intros H. now exists t.
    + intros (t' & [= <-] & H). exact H.
  - split; [discriminate | intros (t & H & _); discriminate H].
Qed.

(** The loop raises ValueError at a timestamp that does not parse: when
    it ends, every timestamp has parsed. *)
Lemma agg_loop_parsed (data : list clean_row) (st st' : agg_state) :
  loop st data = Ok st' ->
  forall r, In r data -> exists t, time_of r = Some t.
Proof.
  revert st; induction data as [|a data IH]; intros st H r Hin.
  - destruct Hin.
  - cbn [agg_loop] in H.
    destruct (step st a) as [st1|e] eqn:E; [|discriminate H].
    cbn [bind] in H. destruct Hin as [<-|Hin]; [|eapply IH; eassumption].
    destruct a as [[ts p] n]. unfold agg_step in E. unfold time_of.
    cbn [ts_of fst]. destruct (strptime ts) as [t|]; [now exists t|].
    discriminate E.
Qed.

(** The records outside the window can be left out. *)
Lemma agg_loop_window (data : list clean_row) (st : agg_state) :
  (forall r, In r data -> exists t, time_of r = Some t) ->
  loop st data = loop st (List.filter inside data).
Proof.
  revert st; induction data as [|a data IH]; intros st Hp; [reflexivity|].
  cbn [List.filter agg_loop].
  destruct (Hp a (or_introl eq_refl)) as [t Ht].
  assert (Hp' : forall r, In r data -> exists t, time_of r = Some t)
    by (intros r Hr; apply Hp; now right).
  destruct (inside a) eqn:E.
  - cbn [agg_loop].
    destruct (step st a); cbn [bind]; [apply IH, Hp' | reflexivity].
  - rewrite (agg_step_outside st a t Ht); [cbn [bind]; apply IH, Hp'|].
    unfold in_window in E. rewrite Ht in E.
    apply andb_false_iff in E as [E|E]; apply Z.leb_gt in E; lia.
Qed.

Lemma dict_set_In (k k0 : datetime) (b v : ohlcv) (d : table) :
  In (k, b) (dict_set k0 v d) -> (k, b) = (k0, v) \/ In (k, b) d.
Proof.
  induction d as [|[k1 v1] d IH]; cbn [dict_set].
  - intros [H|[]]. left. now symmetry.
  - destruct (Z.eqb_spec k0 k1) as [->|_]; intros [H|H].
    + left. now symmetry.
    + right. now right.
    + right. now left.
    + destruct (IH H) as [H'|H']; [now left | right; now right].
Qed.

Lemma filter_snoc {A : Type} (f : A -> bool) (l : list A) (x : A) :
  List.filter f (l ++ [x]) = List.filter f l ++ (if f x then [x] else []).
Proof. rewrite List.filter_app. cbn [List.filter]. now destruct (f x). Qed.

Lemma filter_nothing {A : Type} (f : A -> bool) (l : list A) :
  (forall x, In x l -> f x = false) -> List.filter f l = [].
Proof.
  induction l as [|a l IH]; intros H; cbn [List.filter]; [reflexivity|].
  rewrite (H a (or_introl eq_refl)). apply IH. intros x Hx. apply H. now right.
Qed.

Lemma accumulate_snoc (b : ohlcv) (g : list clean_row) (r : clean_row) :
  accumulate b (g ++ [r])
  = update_ohlcv (accumulate b g) (price_of r) (size_of r).
Proof. unfold accumulate. now rewrite fold_left_app. Qed.

Lemma within_false (k : datetime) (r : clean_row) (t : datetime) :
  time_of r = Some t -> t < k \/ k + interval <= t -> within k r = false.
Proof.
  intros Ht H. unfold in_interval. rewrite Ht.
  destruct (Z.leb_spec k t), (Z.ltb_spec t (k + interval));
    try reflexivity; lia.
Qed.

Lemma within_true (k : datetime) (r : clean_row) (t : datetime) :
  time_of r = Some t -> k <= t < k + interval -> within k r = true.
Proof. intros Ht H. apply within_spec. now exists t. Qed.

(** One record of the window, not earlier than the records before it,
    keeps the invariant. *)
Lemma agg_step_inv (done : list clean_row) (r : clean_row) (t : datetime)
    (st st' : agg_state) :
  0 < interval -> inv done st ->
  time_of r = Some t -> start_time <= t <= end_time ->
  (forall x tx, In x done -> time_of x = Some tx -> tx <= t) ->
  step st r = Ok st' -> inv (done ++ [r]) st'.
Proof.
  intros Hpos Hinv Ht Hwin Hord Hstep.
  rewrite (agg_step_inside st r t Ht Hwin) in Hstep. cbv zeta in Hstep.
  unfold agg_inv in Hinv.
  destruct (interval_start st) as [k|] eqn:Ek.
  - destruct Hinv as ((r0 & Hr0 & Hk) & Hcur & Hne & Hlt & Htbl).
    assert (Hkt : k <= t) by (eapply Hord; eassumption).
    unfold datetime_add in Hstep.
    destruct (_ || _); [discriminate Hstep|]. cbn [bind] in Hstep.
    injection Hstep as <-.
    destruct (Z.leb_spec (k + interval) t) as [Hseal|Hsame];
      unfold agg_inv; cbn [interval_start current_ohlcv ohlcv_data].
    + (* the interval has ended: its bar is stored, a new one starts *)
      assert (Hold : List.filter (within t) done = []).
      { apply filter_nothing. intros x Hx.
        destruct (time_of x) as [tx|] eqn:Ex.
        - apply (within_false t x tx Ex). left.
          specialize (Hlt x tx Hx Ex). lia.
        - unfold in_interval. now rewrite Ex. }
      rewrite filter_snoc, Hold, (within_true t r t Ht) by lia.
      split; [|split; [|split; [|split]]].
      * exists r. split; [apply in_or_app; right; now left | exact Ht].
      * reflexivity.
      * discriminate.
      * intros x tx Hx Ex. apply in_app_or in Hx as [Hx|[<-|[]]].
        -- specialize (Hlt x tx Hx Ex). lia.
        -- rewrite Ht in Ex. injection Ex as <-. lia.
      * intros k' b H.
        assert (Hk' : k' + interval <= t
                      /\ b = accumulate fresh_ohlcv
                               (List.filter (within k') done)
                      /\ List.filter (within k') done <> []).
        { apply dict_set_In in H as [[= -> ->]|H].
          - split; [lia|]. now split.
          - destruct (Htbl k' b H) as (Hend & Hb & Hnon).
            split; [lia|]. now split. }
        destruct Hk' as (Hend & Hb & Hnon).
        rewrite filter_snoc, (within_false k' r t Ht), app_nil_r by lia.
        split; [lia|]. now split.
    + (* the record falls into the current interval *)
      rewrite filter_snoc, (within_true k r t Ht) by lia.
      split; [|split; [|split; [|split]]].
      * exists r0. split; [apply in_or_app; now left | exact Hk].
      * now rewrite accumulate_snoc, Hcur.
      * intros H. apply app_eq_nil in H as [_ H]. discriminate H.
      * intros x tx Hx Ex. apply in_app_or in Hx as [Hx|[<-|[]]].
        -- now apply (Hlt x tx).
        -- rewrite Ht in Ex. injection Ex as <-. lia.
      * intros k' b H. destruct (Htbl k' b H) as (Hend & Hb & Hnon).
        rewrite filter_snoc, (within_false k' r t Ht), app_nil_r by lia.
        split; [lia|]. now split.
  - destruct Hinv as [-> ->]. cbn [interval_start agg_init] in *.
    unfold datetime_add in Hstep.
    destruct (_ || _); [discriminate Hstep|]. cbn [bind] in Hstep.
    injection Hstep as <-.
    destruct (Z.leb_spec (t + interval) t) as [Hseal|Hsame]; [lia|].
    unfold agg_inv; cbn [interval_start current_ohlcv ohlcv_data app].
    cbn [List.filter]. rewrite (within_true t r t Ht) by lia.
    split; [|split; [|split; [|split]]].
    + exists r. split; [now left | exact Ht].
    + reflexivity.
    + discriminate.
    + intros x tx [<-|[]] Ex. rewrite Ht in Ex. injection Ex as <-. lia.
    + intros k' b [].
Qed.

(** Whenever [open] is set, [interval_start] is. *)
Lemma open_interval_start (data : list clean_row) (st st' : agg_state) :
  (interval_start st = None -> open (current_ohlcv st) = None) ->
  loop st data = Ok st' ->
  interval_start st' = None -> open (current_ohlcv st') = None.
Proof.
  revert st; induction data as [|r data IH]; intros st Hst Hloop.
  - cbn [agg_loop] in Hloop. now injection Hloop as <-.
  - cbn [agg_loop] in Hloop.
    destruct (step st r) as [st1|e] eqn:E; [|discriminate Hloop].
    cbn [bind] in Hloop. apply (IH st1); [|assumption].
    destruct r as [[ts p] n]. unfold agg_step in E.
    destruct (strptime ts) as [t|]; [|discriminate E].
    destruct (_ || _); [now injection E as <-|].
    unfold agg_fold in E.
    destruct (datetime_add _ interval) as [bound|e]; [|discriminate E].
    cbn [bind] in E. destruct (bound <=? t); injection E as <-; discriminate.
Qed.

Lemma not_later_trans (a b c : clean_row) :
  not_later a b -> not_later b c -> not_later a c.
Proof.
  intros (ta & tb & Ha & Hb & Hab) (tb' & tc & Hb' & Hc & Hbc).
  rewrite Hb in Hb'. injection Hb' as <-.
  exists ta, tc. repeat split; [assumption | assumption | lia].
Qed.

Lemma not_later_le (x r : clean_row) (tx t : datetime) :
  not_later x r -> time_of x = Some tx -> time_of r = Some t -> tx <= t.
Proof.
  intros (ta & tb & Ha & Hb & Hab) Hx Hr.
  rewrite Hx in Ha. rewrite Hr in Hb. injection Ha as <-.
  now injection Hb as <-.
Qed.

(** The loop over records of the window in chronological order keeps
    the invariant. *)
Lemma agg_loop_inv (rest done : list clean_row) (st st' : agg_state) :
  0 < interval -> inv done st ->
  (forall r, In r rest -> inside r = true) ->
  StronglySorted not_later rest ->
  (forall x y, In x done -> In y rest -> not_later x y) ->
  loop st rest = Ok st' -> inv (done ++ rest) st'.
Proof.
  intros Hpos. revert done st.
  induction rest as [|r rest IH]; intros done st Hinv Hin Hs Hord Hloop.
  - cbn [agg_loop] in Hloop. injection Hloop as <-. now rewrite app_nil_r.
  - cbn [agg_loop] in Hloop.
    destruct (step st r) as [st1|e] eqn:E; [|discriminate Hloop].
    cbn [bind] in Hloop.
    destruct (proj1 (inside_spec r) (Hin r (or_introl eq_refl)))
      as (t & Ht & Hwin).
    apply StronglySorted_inv in Hs as [Hs Hall].
    replace (done ++ r :: rest) with ((done ++ [r]) ++ rest)
      by (now rewrite <- app_assoc).
    apply (IH (done ++ [r]) st1); try assumption.
    + apply (agg_step_inv done r t st st1); try assumption.
      intros x tx Hx Ex.
      apply (not_later_le x r tx t); try assumption.
      apply Hord; [assumption | now left].
    + intros x Hx. apply Hin. now right.
    + intros x y Hx Hy. apply in_app_or in Hx as [Hx|[<-|[]]].
      * apply Hord; [assumption | now right].
      * rewrite List.Forall_forall in Hall. now apply Hall.
Qed.

Lemma Sorted_implied {A : Type} (R R' : A -> A -> Prop) (l : list A) :
  (forall a b, In a l -> In b l -> R a b -> R' a b) ->
  Sorted R l -> Sorted R' l.
Proof.
  induction l as [|a l IH]; intros Himp Hs; [constructor|].
  inversion Hs as [|? ? Hs' Hhd]; subst. constructor.
  - apply IH; [|assumption]. intros x y Hx Hy. apply Himp; now right.
  - destruct l as [|b l]; constructor.
    inversion Hhd; subst. apply Himp; [now left | right; now left | assumption].
Qed.

Lemma StronglySorted_filter {A : Type} (R : A -> A -> Prop)
    (f : A -> bool) (l : list A) :
  StronglySorted R l -> StronglySorted R (List.filter f l).
Proof.
  induction 1 as [|a l Hs IH Hall]; cbn [List.filter]; [constructor|].
  destruct (f a); [|assumption]. constructor; [assumption|].
  rewrite List.Forall_forall in *. intros x Hx. apply Hall.
  now apply List.filter_In in Hx as [Hx _].
Qed.


(** Sorted by the timestamp text is sorted by the instant, when the two
    orders agree. *)
Lemma chronological_sorted (data : list clean_row) :
  chronological data ->
  (forall r, In r data -> exists t, time_of r = Some t) ->
  StronglySorted not_later (sort_rows data).
Proof.
  intros Hchr Hparse. apply Sorted_StronglySorted.
  - intros a b c. apply not_later_trans.
  - apply (Sorted_implied ts_le); [|apply sort_rows_sorted].
    intros a b Ha Hb Hle.
    apply (proj1 (sort_rows_In _ _)) in Ha.
    apply (proj1 (sort_rows_In _ _)) in Hb.
    destruct (Hparse a Ha) as [ta Hta], (Hparse b Hb) as [tb Htb].
    exists ta, tb. repeat split; try assumption.
    unfold ts_le, String.ltb in Hle.
    destruct (String.compare (ts_of a) (ts_of b)) eqn:E.
    + apply String.compare_eq_iff in E. unfold time_of in Hta, Htb.
      rewrite E, Htb in Hta. injection Hta as <-. lia.
    + apply (Hchr a b ta tb); try assumption.
      unfold String.ltb. now rewrite E.
    + rewrite String.compare_antisym, E in Hle. discriminate Hle.
Qed.

Lemma filter_filter {A : Type} (f g : A -> bool) (l : list A) :
  List.filter g (List.filter f l) = List.filter (fun x => f x && g x) l.
Proof.
  induction l as [|a l IH]; [reflexivity|]. cbn [List.filter].
  destruct (f a); cbn [List.filter andb]; [destruct (g a)|]; now rewrite IH.
Qed.

(** Every bar of the table is the bar accumulated over the records
    assigned to its interval, of which there is at least one. *)
Lemma sealed_bars_accumulate (data : list clean_row) (tbl : table) :
  0 < interval -> chronological data ->
  snd (aggregate_ohlcv data interval start_time end_time) = Ok tbl ->
  StronglySorted not_later (sort_rows data)
  /\ forall k bar, In (k, bar) tbl ->
       let g := assigned interval start_time end_time k data in
       g <> [] /\ bar = accumulate fresh_ohlcv g.
Proof.
  intros Hpos Hchr Hrun. unfold aggregate_ohlcv in Hrun. cbn [snd] in Hrun.
  destruct (loop agg_init (sort_rows data)) as [st|e] eqn:Hloop;
    [|discriminate Hrun].
  cbn [bind] in Hrun. injection Hrun as <-.
  pose proof (agg_loop_parsed _ _ _ Hloop) as Hparse.
  assert (Hsorted : StronglySorted not_later (sort_rows data)).
  { apply chronological_sorted; [assumption|].
    intros r Hr. apply Hparse. now apply sort_rows_In. }
  split; [exact Hsorted|].
  rewrite (agg_loop_window _ _ Hparse) in Hloop.
  apply (agg_loop_inv _ [] agg_init st Hpos) in Hloop.
  - cbn [app] in Hloop. intros k bar Hin. cbv zeta. unfold assigned.
    rewrite <- filter_filter.
    unfold agg_inv in Hloop. unfold agg_finish in Hin.
    destruct (interval_start st) as [k0|].
    + destruct Hloop as (_ & Hcur & Hne & _ & Htbl).
      destruct (open (current_ohlcv st)).
      * apply dict_set_In in Hin as [[= -> ->]|Hin]; [now split|].
        destruct (Htbl k bar Hin) as (_ & Hb & Hnon). now split.
      * destruct (Htbl k bar Hin) as (_ & Hb & Hnon). now split.
    + destruct Hloop as [_ ->]. cbn in Hin. destruct Hin.
  - split; reflexivity.
  - intros r Hr. now apply List.filter_In in Hr as [_ Hr].
  - now apply StronglySorted_filter.
  - intros x y [].
Qed.
End AggregationFacts.

(** ** The bars of the table *)

Section Claims_aggregation.
Context {RT : Runtime}.
Variable interval : timedelta.
Variables start_time end_time : datetime.


End Claims_aggregation.

(** ** The interval prompt *)

Section Claims_interval.
Context {RT : Runtime}.

Lemma component_raises (u : ascii) (str : string) (e : exn) :
  component u str = Raise e -> e = ValueError.
Proof.
  unfold component, int_or_raise.
  destruct (contains u str); [|discriminate].
  destruct (py_int _); simpl; [discriminate|]. now intros [= <-].
Qed.

(** [parse_interval] raises nothing but ValueError, from [int], and
    OverflowError, from [timedelta]. *)
Lemma parse_interval_raises (str : string) (e : exn) :
  parse_interval str = Raise e -> e = ValueError \/ e = OverflowError.
Proof.
  unfold parse_interval.
  destruct (component "d" str) as [[d s1]|e1] eqn:E1; simpl;
    [|intros [= <-]; left; eapply component_raises; eassumption].
  destruct (component "h" s1) as [[h s2]|e2] eqn:E2; simpl;
    [|intros [= <-]; left; eapply component_raises; eassumption].
  destruct (component "m" s2) as [[m s3]|e3] eqn:E3; simpl;
    [|intros [= <-]; left; eapply component_raises; eassumption].
  destruct (component "s" s3) as [[sec s4]|e4] eqn:E4; simpl;
    [|intros [= <-]; left; eapply component_raises; eassumption].
  unfold mk_timedelta. destruct (_ || _); [|discriminate].
  intros [= <-]. now right.
Qed.

(** C6.  Under the model of the parsers, ["2h30m"] parses to 2 hours 30
    minutes and the prompt skips ["0s"] and a text without any unit; for
    any parsers, a line whose parsed duration is zero, or one of whose
    components is no integer (ValueError), is not returned: the prompt
    goes on to the next line. *)
Theorem interval_prompt_rejects_zero_and_unparseable :
  parse_interval (RT := cpython) "2h30m"
  = Ok ((2 * 3600 + 30 * 60) * us_per_second)
  /\ mk_timedelta 0 2 30 0 = Ok ((2 * 3600 + 30 * 60) * us_per_second)
  /\ get_interval_input (RT := cpython) ["0s"; "15"; "soon"; "1.5h"; "2h30m"]
     = Ok ((2 * 3600 + 30 * 60) * us_per_second, [])
  /\ forall (line : string) (stdin : list string),
       parse_interval (py_lower (py_strip line)) = Ok 0
       \/ parse_interval (py_lower (py_strip line)) = Raise ValueError ->
       get_interval_input (line :: stdin) = get_interval_input stdin.
Proof.
  split; [vm_compute; reflexivity|].
  split; [vm_compute; reflexivity|].
  split; [vm_compute; reflexivity|].
  intros line stdin [H|H]; cbn [get_interval_input]; now rewrite H.
Qed.

(** C10.  A line whose parsed duration is not zero is returned by the
    prompt, of whatever sign; a line is passed over exactly when its
    duration is zero or a component is no integer; under the model of the
    parsers ["-5m"] is returned as minus five minutes, and [main] hands it
    to [aggregate_ohlcv]. *)
Theorem interval_prompt_accepts_every_nonzero
    (line : string) (stdin : list string) (d : timedelta) :
  parse_interval (py_lower (py_strip line)) = Ok d -> d <> 0 ->
  get_interval_input (line :: stdin) = Ok (d, stdin)
  /\ ~ (forall rest,
          get_interval_input (line :: rest) = get_interval_input rest)
  /\ (forall line',
        (forall rest,
           get_interval_input (line' :: rest) = get_interval_input rest)
        <-> parse_interval (py_lower (py_strip line')) = Ok 0
            \/ parse_interval (py_lower (py_strip line')) = Raise ValueError)
  /\ get_interval_input (RT := cpython) ["-5m"]
     = Ok (- (5 * 60 * us_per_second), [])
  /\ forall cleaned s e t_s t_e rest,
       strptime_seconds (py_strip s) = Some t_s ->
       strptime_seconds (py_strip e) = Some t_e ->
       t_s < t_e ->
       main_interface cleaned (line :: s :: e :: rest)
       = (ohlcv <- snd (aggregate_ohlcv cleaned d t_s t_e) ;;
          Ok (Some ohlcv)).
Proof.
  intros Hparse Hnz.
  assert (Hacc : forall rest, get_interval_input (line :: rest) = Ok (d, rest)).
  { intros rest. cbn [get_interval_input]. rewrite Hparse.
    destruct (Z.eqb_spec d 0); [contradiction | reflexivity]. }
  split; [apply Hacc|]. split.
  { intros H. specialize (H []). rewrite Hacc in H. discriminate H. }
  split.
  { intros line'. split.
    - intros H. specialize (H []). cbn [get_interval_input] in H.
      destruct (parse_interval (py_lower (py_strip line'))) as [d'|e'] eqn:E.
      + destruct (Z.eqb_spec d' 0) as [->|_]; [now left | discriminate H].
      + destruct (parse_interval_raises _ _ E) as [->| ->];
          [now right | discriminate H].
    - intros [H|H] rest; cbn [get_interval_input]; now rewrite H. }
  split; [vm_compute; reflexivity|].
  intros cleaned s e t_s t_e rest Hs He Hlt.
  unfold main_interface. rewrite Hacc. cbn [bind get_datetime_input].
  rewrite Hs. cbn [bind get_datetime_input]. rewrite He. cbn [bind].
  destruct (Z.leb_spec t_e t_s); [lia | reflexivity].
Qed.
End Claims_interval.

(** ** The sample rows under the model of the parsers *)


Lemma price_floor_inclusive_witness :
  clean_and_validate_row (RT := cpython) Samples.row_floor ∅
  = (Some ("2024-01-01 09:30:02.000000", float_of_Z 100, 4), [],
     {[ "2024-01-01 09:30:02.000000" ]} ∪ ∅).
Proof.
  refine (proj2 (price_floor_inclusive (RT := cpython)
                   "2024-01-01 09:30:02.000000" "100.0" "4" ∅
                   63839698202000000 (float_of_Z 100) _ _ _ _)
            eq_refl 4 _ _).
  - discriminate.
  - vm_compute. reflexivity.
  - apply not_elem_of_empty.
  - vm_compute. reflexivity.
  - vm_compute. reflexivity.
  - lia.
Defined.

Lemma timestamp_recorded_before_price_and_size_witness :
  let ts := "2024-01-01 09:30:01.000000" in
  snd (clean_and_validate_row (RT := cpython) [ts; "99.5"; "1"] ∅)
  = {[ ts ]} ∪ ∅
  /\ (forall between pr' sz',
        exists before,
          process_rows (RT := cpython)
            ([ts; "99.5"; "1"] :: between ++ [[ts; pr'; sz']]) ∅
          = before ++ [(None, [message DuplicateTimestamp], [ts; pr'; sz'])]
          /\ length before = S (length between))
  /\ (fst (fst (clean_and_validate_row (RT := cpython) [ts; "99.5"; "1"] ∅))
      = None ->
      forall rows c e r,
        In (Some c, e, r)
           (process_rows (RT := cpython) ([ts; "99.5"; "1"] :: rows) ∅) ->
        ts_of c <> ts).
Proof.
  apply (timestamp_recorded_before_price_and_size (RT := cpython)
           "2024-01-01 09:30:01.000000" "99.5" "1" ∅ 63839698201000000).
  - discriminate.
  - vm_compute. reflexivity.
  - apply not_elem_of_empty.
Defined.

Lemma interval_prompt_rejects_zero_and_unparseable_witness :
  get_interval_input (RT := cpython) ["0s"; "15m"]
  = get_interval_input (RT := cpython) ["15m"].
Proof.
  destruct (interval_prompt_rejects_zero_and_unparseable (RT := cpython))
    as (_ & _ & _ & H).
  apply (H "0s" ["15m"]). left. vm_compute. reflexivity.
Defined.

Lemma interval_prompt_accepts_every_nonzero_witness :
  get_interval_input (RT := cpython) ["-5m"; "1m"]
  = Ok (- (5 * 60 * us_per_second), ["1m"]).
Proof.
  refine (proj1 (interval_prompt_accepts_every_nonzero (RT := cpython)
                   "-5m" ["1m"] (- (5 * 60 * us_per_second)) _ _)).
  - vm_compute. reflexivity.
  - vm_compute. discriminate.
Defined.


Lemma sample_ticks_chronological :
  chronological (RT := cpython) Samples.ticks.
Proof.
  intros a b ta tb Ha Hb.
  repeat (destruct Ha as [<-|Ha]; [|]); try destruct Ha;
    repeat (destruct Hb as [<-|Hb]; [|]); try destruct Hb;
    vm_compute; intros [= <-] [= <-] H; congruence.
Defined.



(** A second way for C2, as stated, to fail: an hour written [9] sorts
    after the hour [09], so that the bar that starts at 09:30:30 closes
    with the record of 9:30:10 and counts its size. *)
Lemma unpadded_hour_out_of_order :
  process_file (RT := cpython) Samples.unpadded_file
  = Ok [(Some ("2024-01-01 09:30:30.000000", float_of_Z 100, 1), [],
         ["2024-01-01 09:30:30.000000"; "100"; "1"]);
        (Some ("2024-01-01 9:30:10.000000", float_of_Z 105, 2), [],
         ["2024-01-01 9:30:10.000000"; "105"; "2"])]
  /\ aggregate_ohlcv (RT := cpython) Samples.unpadded_ticks Samples.minute
       (Samples.jan1 9 30 0) (Samples.jan1 9 32 0)
     = (Samples.unpadded_ticks,
        Ok [(Samples.jan1 9 30 30,
             {| open := Some (float_of_Z 100); high := float_of_Z 105;
                low := float_of_Z 100; close := Some (float_of_Z 105);
                volume := 3 |})])
  /\ assigned (RT := cpython) Samples.minute (Samples.jan1 9 30 0)
       (Samples.jan1 9 32 0) (Samples.jan1 9 30 30) Samples.unpadded_ticks
     = [("2024-01-01 09:30:30.000000", float_of_Z 100, 1)].
Proof. repeat split; vm_compute; reflexivity. Qed.

(** * Further properties *)

(** ** The validator and the files *)

Section Validation_more.
Context {RT : Runtime}.

Lemma fle_floor_of_not_below (p : float) :
  is_nan p = false -> flt p (float_of_Z 100) = false ->
  fle (float_of_Z 100) p = true.
Proof.
  intros Hn Hlt. apply not_flt_fle; try assumption.
  now rewrite float_of_Z_100.
Qed.

(** X1.  A row is accepted exactly when it has three fields, a non-empty
    timestamp that parses and is not in the set, a price that parses and
    is neither [<= 0] nor [< 100], and a size that parses and is not
    negative; the record holds the timestamp text and the two parsed
    values. *)
Theorem accepted_iff (r : row) (seen : gset string) (c : clean_row) :
  fst (fst (clean_and_validate_row r seen)) = Some c
  <-> exists ts pr sz t p n,
        r = [ts; pr; sz] /\ ts <> "" /\ strptime ts = Some t
        /\ (ts ∉ seen)
        /\ py_float pr = Some p /\ fle p (float_of_Z 0) = false
        /\ flt p (float_of_Z 100) = false
        /\ py_int sz = Some n /\ 0 <= n /\ c = (ts, p, n).
Proof.
  split.
  - unfold clean_and_validate_row.
    destruct r as [|ts [|pr [|sz [|x r]]]]; try discriminate.
    destruct (String.eqb_spec ts "") as [->|Hne]; [discriminate|].
    destruct (strptime ts) as [t|] eqn:Et; [|discriminate].
    case_bool_decide; [discriminate|].
    destruct (py_float pr) as [p|] eqn:Ep; [|discriminate].
    destruct (fle p _) eqn:E0; [discriminate|].
    destruct (flt p _) eqn:E100; [discriminate|].
    destruct (py_int sz) as [n|] eqn:En; [|discriminate].
    destruct (Z.ltb_spec n 0); [discriminate|].
    cbn [fst]. intros [= <-]. exists ts, pr, sz, t, p, n.
    repeat split; assumption.
  - intros (ts & pr & sz & t & p & n & -> & Hne & Et & Hin & Ep & E0 & E100
            & En & Hn & ->).
    rewrite (clean_and_validate_row_fresh ts pr sz seen t Hne Et Hin).
    cbv zeta. rewrite Ep, E0, E100, En.
    destruct (Z.ltb_spec n 0); [lia | reflexivity].
Qed.

(** X2.  A cleaned record has a timestamp that parses, a size that is not
    negative and, unless its price is a NaN, a price of at least 100. *)
Theorem cleaned_record_bounds (r : row) (seen : gset string) (c : clean_row) :
  fst (fst (clean_and_validate_row r seen)) = Some c ->
  (exists t, time_of c = Some t)
  /\ 0 <= size_of c
  /\ (is_nan (price_of c) = false ->
      fle (float_of_Z 100) (price_of c) = true
      /\ flt (float_of_Z 0) (price_of c) = true).
Proof.
  unfold clean_and_validate_row.
  destruct r as [|ts [|pr [|sz [|x r]]]]; try discriminate.
  destruct (String.eqb ts ""); [discriminate|].
  destruct (strptime ts) as [t|] eqn:Et; [|discriminate].
  case_bool_decide; [discriminate|].
  destruct (py_float pr) as [p|]; [|discriminate].
  destruct (fle p _) eqn:E0; [discriminate|].
  destruct (flt p _) eqn:E100; [discriminate|].
  destruct (py_int sz) as [n|]; [|discriminate].
  destruct (Z.ltb_spec n 0); [discriminate|].
  cbn [fst]. intros [= <-]. unfold time_of.
  cbn [ts_of price_of size_of fst snd].
  split; [now exists t|]. split; [assumption|]. intros Hn.
  pose proof (fle_floor_of_not_below p Hn E100) as H100.
  split; [exact H100|].
  rewrite float_of_Z_0 in *. rewrite float_of_Z_100 in *.
  clear -E0 Hn. destruct p as [ s | s | | s m e ]; try destruct s;
    try discriminate Hn; try discriminate E0; reflexivity.
Qed.

(** X3.  The set after a row: the row's timestamp is added when the row
    got past the four checks on the number of fields and the timestamp, the
    set is as before when one of them rejected it; nothing is ever taken
    out. *)
Theorem set_after_row (r : row) (seen : gset string) :
  snd (clean_and_validate_row r seen)
  = match first_failure r seen with
    | Some IncorrectColumnCount | Some MissingTimestamp
    | Some InvalidTimestampFormat | Some DuplicateTimestamp => seen
    | _ => {[ nth 0 r "" ]} ∪ seen
    end
  /\ seen ⊆ snd (clean_and_validate_row r seen).
Proof.
  split; [|apply clean_and_validate_row_mono].
  unfold clean_and_validate_row, first_failure.
  destruct r as [|ts [|pr [|sz [|x r]]]]; try reflexivity.
  cbn [List.find check_order fails nth length Nat.eqb negb].
  destruct (String.eqb ts ""); [reflexivity|].
  destruct (strptime ts); [|reflexivity].
  destruct (bool_decide (ts ∈ seen)); [reflexivity|].
  destruct (py_float pr) as [p|]; [|reflexivity].
  destruct (fle p _); [reflexivity|].
  destruct (flt p _); [reflexivity|].
  destruct (py_int sz) as [n|]; [|reflexivity].
  destruct (n <? 0); reflexivity.
Qed.



(** The cleaned rows among the results of one file. *)
Lemma cleaned_data_single (results : list file_result) :
  cleaned_data [results]
  = flat_map (fun fr : file_result =>
                match fst (fst fr) with Some c => [c] | None => [] end)
      results.
Proof. unfold cleaned_data. cbn [flat_map]. now rewrite app_nil_r. Qed.

(** The timestamp of an accepted row is in the set afterwards. *)
Lemma accepted_recorded (r : row) (seen : gset string) (c : clean_row) :
  fst (fst (clean_and_validate_row r seen)) = Some c ->
  ts_of c ∈ snd (clean_and_validate_row r seen).
Proof.
  unfold clean_and_validate_row.
  destruct r as [|ts [|pr [|sz [|x r]]]]; try discriminate.
  destruct (String.eqb ts ""); [discriminate|].
  destruct (strptime ts); [|discriminate].
  case_bool_decide; [discriminate|].
  destruct (py_float pr) as [p|]; [|discriminate].
  destruct (fle p _); [discriminate|].
  destruct (flt p _); [discriminate|].
  destruct (py_int sz) as [n|]; [|discriminate].
  destruct (n <? 0); [discriminate|].
  cbn [fst snd]. intros [= <-]. cbn [ts_of fst].
  apply elem_of_union_l. now apply elem_of_singleton.
Qed.

(** X5.  The cleaned records of one file carry pairwise different
    timestamp texts, none of them a text that was in the set before. *)
Theorem cleaned_timestamps_unique (rows : list row) (seen : gset string) :
  List.NoDup (map ts_of (cleaned_data [process_rows rows seen]))
  /\ forall c, In c (cleaned_data [process_rows rows seen]) -> ts_of c ∉ seen.
Proof.
  rewrite cleaned_data_single.
  revert seen; induction rows as [|r rows IH]; intros seen.
  - split; [constructor | intros c []].
  - cbn [process_rows].
    pose proof (accepted_fresh r seen) as Hacc.
    pose proof (accepted_recorded r seen) as Hrec.
    pose proof (clean_and_validate_row_mono r seen) as Hmono.
    destruct (clean_and_validate_row r seen) as [[c0 e0] seen'].
    cbn [fst snd] in *. destruct (IH seen') as [Hnd Hfresh].
    cbn [flat_map fst]. destruct c0 as [c0|]; cbn [app map].
    + assert (Hin : ts_of c0 ∈ seen') by now apply Hrec.
      split.
      * constructor; [|exact Hnd]. intros Hc.
        apply in_map_iff in Hc as (c & Ec & Hc).
        apply Hfresh in Hc. rewrite Ec in Hc. contradiction.
      * intros c [<-|Hc]; [now apply Hacc|].
        intros Hs. apply (Hfresh c Hc). now apply Hmono.
    + split; [exact Hnd|]. intros c Hc Hs.
      apply (Hfresh c Hc). now apply Hmono.
Qed.
End Validation_more.

(** ** The counters *)

Lemma tally_rows_spec (l : list file_result) (acc : tally) :
  let t := fold_left tally_row l acc in
  total_rows t = total_rows acc + Z.of_nat (length l)
  /\ valid_rows t - valid_rows acc
     = Z.of_nat (length (cleaned t)) - Z.of_nat (length (cleaned acc))
  /\ invalid_rows t - invalid_rows acc
     = Z.of_nat (length (error_log t)) - Z.of_nat (length (error_log acc))
  /\ total_rows t - total_rows acc
     = (valid_rows t - valid_rows acc) + (invalid_rows t - invalid_rows acc)
  /\ cleaned t = cleaned acc ++ cleaned_data [l].
Proof.
  rewrite cleaned_data_single.
  revert acc; induction l as [|[[c e] r] l IH]; intros acc; cbv zeta.
  - cbn [fold_left length flat_map]. rewrite app_nil_r.
    repeat split; try reflexivity; lia.
  - cbn [fold_left]. specialize (IH (tally_row acc (c, e, r))).
    cbv zeta in IH. destruct IH as (Ht & Hv & Hi & Hs & Hc).
    destruct c as [c|];
      cbn [tally_row total_rows valid_rows invalid_rows error_log cleaned
           flat_map fst length] in *;
      rewrite ?length_app in *; cbn [length app] in *;
      (split; [lia|]); (split; [lia|]); (split; [lia|]); (split; [lia|]);
      rewrite Hc, <- ?app_assoc; reflexivity.
Qed.

Lemma main_collect_spec (all_results : list (list file_result))
    (acc : tally) :
  let t := fold_left
             (fun acc file_results => fold_left tally_row file_results acc)
             all_results acc in
  total_rows t
  = total_rows acc + Z.of_nat (length (List.concat all_results))
  /\ valid_rows t - valid_rows acc
     = Z.of_nat (length (cleaned t)) - Z.of_nat (length (cleaned acc))
  /\ invalid_rows t - invalid_rows acc
     = Z.of_nat (length (error_log t)) - Z.of_nat (length (error_log acc))
  /\ total_rows t - total_rows acc
     = (valid_rows t - valid_rows acc) + (invalid_rows t - invalid_rows acc)
  /\ cleaned t = cleaned acc ++ cleaned_data all_results.
Proof.
  revert acc; induction all_results as [|l all IH]; intros acc; cbv zeta.
  - cbn [fold_left List.concat length cleaned_data flat_map].
    rewrite app_nil_r. repeat split; try reflexivity; lia.
  - cbn [fold_left List.concat].
    destruct (tally_rows_spec l acc) as (Ht & Hv & Hi & Hs & Hc).
    destruct (IH (fold_left tally_row l acc)) as (Ht' & Hv' & Hi' & Hs' & Hc').
    rewrite length_app.
    (split; [lia|]); (split; [lia|]); (split; [lia|]); (split; [lia|]).
    rewrite Hc', Hc, !cleaned_data_single.
    unfold cleaned_data. cbn [flat_map]. now rewrite <- app_assoc.
Qed.


(** X6.  The counters of [main]: every result is counted once, as valid
    or as invalid; the valid ones are as many as the cleaned rows kept, the
    invalid ones as many as the entries of the error log; and the cleaned
    rows are those of the files, in the order of the files and of their
    rows. *)
Theorem main_collect_counts (all_results : list (list file_result)) :
  let t := main_collect all_results in
  total_rows t = Z.of_nat (length (List.concat all_results))
  /\ total_rows t = valid_rows t + invalid_rows t
  /\ valid_rows t = Z.of_nat (length (cleaned t))
  /\ invalid_rows t = Z.of_nat (length (error_log t))
  /\ cleaned t = cleaned_data all_results.
Proof.
  unfold main_collect.
  destruct (main_collect_spec all_results tally_init)
    as (Ht & Hv & Hi & Hs & Hc). cbv zeta.
  cbn [tally_init total_rows valid_rows invalid_rows error_log cleaned
       length app] in *.
  repeat split; try assumption; lia.
Qed.

(** ** The prompts *)

Section Prompts_more.
Context {RT : Runtime}.

(** X7.  What the interval prompt returns is never zero: it is the
    duration of the first line that is not passed over, the lines before it
    have a zero duration or a component that is no integer, and the lines
    after it are left unread. *)
Theorem get_interval_input_returns (stdin : list string)
    (d : timedelta) (rest : list string) :
  get_interval_input stdin = Ok (d, rest)
  <-> exists skipped line,
        stdin = skipped ++ line :: rest
        /\ Forall passed_over skipped
        /\ parse_interval (py_lower (py_strip line)) = Ok d /\ d <> 0.
Proof.
  split.
  - revert d rest; induction stdin as [|l stdin IH]; intros d rest H.
    + discriminate H.
    + cbn [get_interval_input] in H.
      destruct (parse_interval (py_lower (py_strip l))) as [d'|e] eqn:E.
      * destruct (Z.eqb_spec d' 0) as [->|Hnz].
        -- destruct (IH d rest H) as (sk & line & -> & Hsk & Hp & Hd).
           exists (l :: sk), line. repeat split; try assumption.
           constructor; [now left | assumption].
        -- injection H as <- <-. exists [], l. repeat split; try assumption.
           constructor.
      * destruct e; try discriminate H.
        destruct (IH d rest H) as (sk & line & -> & Hsk & Hp & Hd).
        exists (l :: sk), line. repeat split; try assumption.
        constructor; [now right | assumption].
  - intros (sk & line & -> & Hsk & Hp & Hd).
    induction Hsk as [|l sk Hl Hsk IH]; cbn [app get_interval_input].
    + rewrite Hp. destruct (Z.eqb_spec d 0); [contradiction | reflexivity].
    + destruct Hl as [Hl|Hl]; rewrite Hl; [rewrite Z.eqb_refl|]; exact IH.
Qed.

(** X8.  The interval prompt raises nothing but EOFError and
    OverflowError, never ValueError; EOFError exactly when every line is
    passed over; OverflowError when the first line that is not passed over
    has a duration beyond what a [timedelta] holds, as the model of the
    parsers shows for 9999999999 days. *)
Theorem get_interval_input_raises (stdin : list string) :
  (forall e, get_interval_input stdin = Raise e ->
             e = EOFError \/ e = OverflowError)
  /\ (get_interval_input stdin = Raise EOFError <-> Forall passed_over stdin)
  /\ get_interval_input (RT := cpython) ["9999999999d"; "1m"]
     = Raise OverflowError.
Proof.
  split; [|split; [|vm_compute; reflexivity]].
  - induction stdin as [|l stdin IH]; intros e H.
    + injection H as <-. now left.
    + cbn [get_interval_input] in H.
      destruct (parse_interval (py_lower (py_strip l))) as [d|e'] eqn:E.
      * destruct (d =? 0); [now apply IH | discriminate H].
      * destruct (parse_interval_raises _ _ E) as [-> | ->].
        -- now apply IH.
        -- injection H as <-. now right.
  - split.
    + induction stdin as [|l stdin IH]; intros H; [constructor|].
      cbn [get_interval_input] in H.
      destruct (parse_interval (py_lower (py_strip l))) as [d|e'] eqn:E.
      * destruct (Z.eqb_spec d 0) as [->|]; [|discriminate H].
        constructor; [left; exact E | now apply IH].
      * destruct (parse_interval_raises _ _ E) as [-> | ->];
          [|discriminate H].
        constructor; [right; exact E | now apply IH].
    + induction 1 as [|l stdin Hl Hs IH]; [reflexivity|].
      cbn [get_interval_input].
      destruct Hl as [Hl|Hl]; rewrite Hl; [rewrite Z.eqb_refl|]; exact IH.
Qed.

(** X9.  The prompt for a time returns the first line that parses, leaves
    the lines after it unread, and raises EOFError, and nothing else, when
    no line parses. *)
Theorem get_datetime_input_first_parsed (stdin : list string) :
  match get_datetime_input stdin with
  | Ok (t, rest) =>
    exists skipped line,
      stdin = skipped ++ line :: rest
      /\ Forall (fun l => strptime_seconds (py_strip l) = None) skipped
      /\ strptime_seconds (py_strip line) = Some t
  | Raise e =>
    e = EOFError
    /\ Forall (fun l => strptime_seconds (py_strip l) = None) stdin
  end.
Proof.
  induction stdin as [|l stdin IH]; cbn [get_datetime_input].
  - split; [reflexivity | constructor].
  - destruct (strptime_seconds (py_strip l)) as [t|] eqn:E.
    + exists [], l. repeat split; [constructor | exact E].
    + destruct (get_datetime_input stdin) as [[t rest]|e].
      * destruct IH as (sk & line & -> & Hsk & Hp).
        exists (l :: sk), line. repeat split; try assumption.
        now constructor.
      * destruct IH as [-> Hall]. split; [reflexivity | now constructor].
Qed.
End Prompts_more.

(** ** Interval strings, part by part *)

Lemma append_cons (x : ascii) (a b : string) :
  (String x a ++ b = String x (a ++ b))%string.
Proof. reflexivity. Qed.

Lemma append_nil (b : string) : ("" ++ b = b)%string.
Proof. reflexivity. Qed.

Lemma append_assoc (a b c : string) :
  ((a ++ b) ++ c = a ++ (b ++ c))%string.
Proof.
  induction a as [|x a IH]; [reflexivity|].
  rewrite !append_cons. f_equal. exact IH.
Qed.

Lemma append_empty_r (a : string) : (a ++ "" = a)%string.
Proof.
  induction a as [|x a IH]; [reflexivity|].
  rewrite append_cons. f_equal. exact IH.
Qed.

Lemma contains_append (c : ascii) (a b : string) :
  contains c (a ++ b)%string = contains c a || contains c b.
Proof.
  induction a as [|x a IH]; [reflexivity|].
  rewrite append_cons. cbn [contains].
  destruct (Ascii.eqb x c); [reflexivity | exact IH].
Qed.

Lemma split_without (c : ascii) (s : string) :
  contains c s = false -> split c s = [s].
Proof.
  induction s as [|x s IH]; cbn [contains split]; [reflexivity|].
  destruct (Ascii.eqb x c); [discriminate|]. intros H. now rewrite (IH H).
Qed.

Lemma split_at_first (c : ascii) (a rest : string) :
  contains c a = false ->
  split c (a ++ String c rest)%string = a :: split c rest.
Proof.
  induction a as [|x a IH].
  - intros _. rewrite append_nil. cbn [split]. now rewrite Ascii.eqb_refl.
  - rewrite append_cons. cbn [contains split].
    destruct (Ascii.eqb x c); [discriminate|]. intros H. now rewrite (IH H).
Qed.

Section Interval_more.
Context {RT : Runtime}.

(** One block of [parse_interval] on a part followed by text without the
    unit letter: the value of the part, and the text. *)
Lemma component_piece (u : ascii) (o : option string) (rest : string) :
  match o with Some a => contains u a = false | None => True end ->
  contains u rest = false ->
  component u (piece u o ++ rest)%string
  = (n <- piece_value o ;; Ok (n, rest)).
Proof.
  intros Ho Hrest. unfold component.
  destruct o as [a|]; cbn [piece piece_value].
  - rewrite append_assoc, append_cons, append_nil.
    rewrite contains_append. cbn [contains]. rewrite Ascii.eqb_refl, orb_true_r.
    rewrite (split_at_first u a rest Ho), (split_without u rest Hrest).
    cbn [nth]. destruct (int_or_raise a); reflexivity.
  - rewrite append_nil. cbn [bind]. now rewrite Hrest.
Qed.

Lemma unit_free_spec (a : string) :
  unit_free a = true ->
  contains "d" a = false /\ contains "h" a = false
  /\ contains "m" a = false /\ contains "s" a = false.
Proof.
  unfold unit_free. rewrite negb_true_iff, !orb_false_iff. tauto.
Qed.

(** A part holds its own unit letter and none of the other three. *)
Lemma piece_other (u v : ascii) (o : option string) :
  In u ["d"; "h"; "m"; "s"]%char -> In v ["d"; "h"; "m"; "s"]%char ->
  u <> v -> piece_ok o = true -> contains u (piece v o) = false.
Proof.
  intros Hu Hv Huv Ho. destruct o as [a|]; [|reflexivity].
  cbn [piece piece_ok] in *. apply unit_free_spec in Ho.
  rewrite contains_append. cbn [contains].
  destruct (Ascii.eqb_spec v u) as [->|_]; [contradiction|].
  rewrite orb_false_r. cbn [In] in Hu.
  destruct Hu as [<-|[<-|[<-|[<-|[]]]]]; tauto.
Qed.

Lemma piece_own (u : ascii) (o : option string) :
  In u ["d"; "h"; "m"; "s"]%char -> piece_ok o = true ->
  match o with Some a => contains u a = false | None => True end.
Proof.
  intros Hu Ho. destruct o as [a|]; [|exact I].
  cbn [piece_ok] in Ho. apply unit_free_spec in Ho. cbn [In] in Hu.
  destruct Hu as [<-|[<-|[<-|[<-|[]]]]]; tauto.
Qed.

(** X10.  A string made of a day part, an hour part, a minute part and a
    second part in this order, each of them a text without unit letter
    followed by [d], [h], [m] or [s], or left out: [parse_interval] gives
    the [timedelta] of the four values, 0 for a part left out; it raises
    ValueError at the first part whose text is no integer. *)
Theorem parse_interval_parts (od oh om os : option string) :
  piece_ok od = true -> piece_ok oh = true ->
  piece_ok om = true -> piece_ok os = true ->
  parse_interval
    (piece "d" od ++ piece "h" oh ++ piece "m" om ++ piece "s" os)%string
  = (days <- piece_value od ;;
     hours <- piece_value oh ;;
     minutes <- piece_value om ;;
     seconds <- piece_value os ;;
     mk_timedelta days hours minutes seconds).
Proof.
  intros Hd Hh Hm Hs. unfold parse_interval.
  assert (U : forall u, In u ["d"; "h"; "m"; "s"]%char ->
                        In u ["d"; "h"; "m"; "s"]%char) by auto.
  rewrite (component_piece "d" od).
  2: { apply piece_own; [cbn; tauto | assumption]. }
  2: { rewrite !contains_append, !piece_other;
         try assumption; cbn; try tauto; discriminate. }
  destruct (piece_value od) as [days|e]; cbn [bind]; [|reflexivity].
  rewrite (component_piece "h" oh).
  2: { apply piece_own; [cbn; tauto | assumption]. }
  2: { rewrite !contains_append, !piece_other;
         try assumption; cbn; try tauto; discriminate. }
  destruct (piece_value oh) as [hours|e]; cbn [bind]; [|reflexivity].
  rewrite (component_piece "m" om).
  2: { apply piece_own; [cbn; tauto | assumption]. }
  2: { rewrite !piece_other; try assumption; cbn; try tauto; discriminate. }
  destruct (piece_value om) as [minutes|e]; cbn [bind]; [|reflexivity].
  rewrite <- (append_empty_r (piece "s" os)).
  rewrite (component_piece "s" os).
  2: { apply piece_own; [cbn; tauto | assumption]. }
  2: { reflexivity. }
  destruct (piece_value os) as [seconds|e]; cbn [bind]; reflexivity.
Qed.

(** X11.  A string in which none of the four unit letters occurs parses
    to the zero duration, whatever else it holds, and so is passed over by
    the prompt. *)
Theorem parse_interval_without_unit (str : string) :
  unit_free str = true ->
  parse_interval str = Ok 0
  /\ forall line stdin,
       py_lower (py_strip line) = str ->
       get_interval_input (line :: stdin) = get_interval_input stdin.
Proof.
  intros H. apply unit_free_spec in H as (Hd & Hh & Hm & Hs).
  assert (E : parse_interval str = Ok 0).
  { unfold parse_interval, component. rewrite Hd. cbn [bind].
    rewrite Hh. cbn [bind]. rewrite Hm. cbn [bind]. rewrite Hs. cbn [bind].
    vm_compute. reflexivity. }
  split; [exact E|]. intros line stdin <-. cbn [get_interval_input].
  now rewrite E.
Qed.
End Interval_more.

(** ** More on the aggregation *)

Lemma insert_row_stable (key : string) (a : clean_row) (l : list clean_row) :
  List.filter (fun r => String.eqb (ts_of r) key) (insert_row a l)
  = List.filter (fun r => String.eqb (ts_of r) key) (a :: l).
Proof.
  induction l as [|y l IH]; [reflexivity|]. cbn [insert_row].
  destruct (String.ltb (ts_of y) (ts_of a)) eqn:E; [|reflexivity].
  cbn [List.filter] in *. rewrite IH.
  destruct (String.eqb_spec (ts_of y) key) as [Hy|Hy];
    destruct (String.eqb_spec (ts_of a) key) as [Ha|Ha]; try reflexivity.
  exfalso. rewrite Hy, Ha in E. unfold String.ltb in E.
  assert (H : String.compare key key = Eq).
  { clear. induction key as [|c k IH]; [reflexivity|]. cbn.
    unfold Ascii.compare. now rewrite N.compare_refl. }
  now rewrite H in E.
Qed.

(** X12.  The list that [aggregate_ohlcv] leaves to its caller: the same
    records, rearranged so that no timestamp text is followed by a
    smaller one, with the records of one timestamp text in the order they
    had. *)
Theorem aggregate_ohlcv_leaves_sorted {RT : Runtime}
    (data : list clean_row) (interval : timedelta)
    (start_time end_time : datetime) :
  let left := fst (aggregate_ohlcv data interval start_time end_time) in
  Permutation left data
  /\ Sorted ts_le left
  /\ forall key,
       List.filter (fun r => String.eqb (ts_of r) key) left
       = List.filter (fun r => String.eqb (ts_of r) key) data.
Proof.
  cbv zeta. unfold aggregate_ohlcv. cbn [fst].
  split; [apply sort_rows_permutation|].
  split; [apply sort_rows_sorted|].
  intros key. induction data as [|a data IH]; [reflexivity|].
  cbn [sort_rows fold_right]. fold (sort_rows data).
  rewrite insert_row_stable. cbn [List.filter]. now rewrite IH.
Qed.

Section Aggregation_more.
Context {RT : Runtime}.
Variable interval : timedelta.
Variables start_time end_time : datetime.

#[local] Abbreviation step' := (agg_step interval start_time end_time).
#[local] Abbreviation loop' := (agg_loop interval start_time end_time).
#[local] Abbreviation inside' := (in_window start_time end_time).

(** X13.  When no record lies within the window, and so for an empty
    list, the table is empty. *)
Theorem aggregate_ohlcv_nothing_in_window (data : list clean_row) :
  (forall r, In r data ->
     exists t, time_of r = Some t /\ (t < start_time \/ end_time < t)) ->
  aggregate_ohlcv data interval start_time end_time
  = (sort_rows data, Ok []).
Proof.
  intros H. unfold aggregate_ohlcv. f_equal.
  rewrite (agg_loop_window interval start_time end_time).
  - rewrite filter_nothing; [reflexivity|].
    intros r Hr. apply (proj1 (sort_rows_In _ _)) in Hr.
    destruct (H r Hr) as (t & Ht & Hout). unfold in_window. rewrite Ht.
    destruct (Z.leb_spec start_time t), (Z.leb_spec t end_time);
      try reflexivity; lia.
  - intros r Hr. apply (proj1 (sort_rows_In _ _)) in Hr.
    destruct (H r Hr) as (t & Ht & _). now exists t.
Qed.

(** The key of a bar is the instant of a record of the window. *)
Lemma agg_loop_keys (known rest : list clean_row) (st st' : agg_state) :
  let anchored k :=
    exists r, In r known /\ time_of r = Some k
              /\ start_time <= k <= end_time in
  (forall r, In r rest -> In r known) ->
  (forall k, interval_start st = Some k -> anchored k) ->
  (forall k b, In (k, b) (ohlcv_data st) -> anchored k) ->
  loop' st rest = Ok st' ->
  (forall k, interval_start st' = Some k -> anchored k)
  /\ (forall k b, In (k, b) (ohlcv_data st') -> anchored k).
Proof.
  cbv zeta. revert st.
  induction rest as [|r rest IH]; intros st Hsub Hk Htbl Hloop.
  - cbn [agg_loop] in Hloop. injection Hloop as <-. now split.
  - cbn [agg_loop] in Hloop.
    destruct (step' st r) as [st1|e] eqn:E; [|discriminate Hloop].
    cbn [bind] in Hloop.
    apply (IH st1); try assumption; [intros x Hx; apply Hsub; now right | |].
    + destruct (time_of r) as [t|] eqn:Et.
      * destruct (Z.ltb_spec t start_time) as [Hlo|Hlo];
          [rewrite (agg_step_outside _ _ _ st r t Et) in E by lia;
           injection E as <-; exact Hk|].
        destruct (Z.ltb_spec end_time t) as [Hhi|Hhi];
          [rewrite (agg_step_outside _ _ _ st r t Et) in E by lia;
           injection E as <-; exact Hk|].
        rewrite (agg_step_inside _ _ _ st r t Et) in E by lia.
        cbv zeta in E.
        destruct (datetime_add _ interval) as [bound|e]; [|discriminate E].
        cbn [bind] in E. injection E as <-.
        assert (Hr : exists r0, In r0 known /\ time_of r0 = Some t
                                /\ start_time <= t <= end_time).
        { exists r. repeat split; try assumption; try lia.
          apply Hsub. now left. }
        destruct (bound <=? t); cbn [interval_start]; intros k [= <-];
          [exact Hr|].
        destruct (interval_start st) as [k0|]; [now apply Hk | exact Hr].
      * destruct r as [[ts p] n]. unfold agg_step in E. unfold time_of in Et.
        cbn [ts_of fst] in Et. rewrite Et in E. discriminate E.
    + destruct (time_of r) as [t|] eqn:Et.
      * destruct (Z.ltb_spec t start_time) as [Hlo|Hlo];
          [rewrite (agg_step_outside _ _ _ st r t Et) in E by lia;
           injection E as <-; exact Htbl|].
        destruct (Z.ltb_spec end_time t) as [Hhi|Hhi];
          [rewrite (agg_step_outside _ _ _ st r t Et) in E by lia;
           injection E as <-; exact Htbl|].
        rewrite (agg_step_inside _ _ _ st r t Et) in E by lia.
        cbv zeta in E.
        destruct (datetime_add _ interval) as [bound|e]; [|discriminate E].
        cbn [bind] in E. injection E as <-.
        destruct (bound <=? t); cbn [ohlcv_data]; [|exact Htbl].
        intros k b Hin. apply dict_set_In in Hin as [[= -> ->]|Hin];
          [|now apply (Htbl k b)].
        destruct (interval_start st) as [k0|]; [now apply Hk|].
        exists r. repeat split; try assumption; try lia. apply Hsub. now left.
      * destruct r as [[ts p] n]. unfold agg_step in E. unfold time_of in Et.
        cbn [ts_of fst] in Et. rewrite Et in E. discriminate E.
Qed.

(** X14.  Whatever the interval and the order of the records: every bar
    of the table is stored under the instant of a record of the list that
    lies within the window. *)
Theorem bars_keyed_by_records (data : list clean_row) (tbl : table) :
  snd (aggregate_ohlcv data interval start_time end_time) = Ok tbl ->
  forall k, In k (keys tbl) ->
    exists r, In r data /\ time_of r = Some k
              /\ start_time <= k <= end_time.
Proof.
  intros Hrun k Hk. unfold aggregate_ohlcv in Hrun. cbn [snd] in Hrun.
  destruct (loop' agg_init (sort_rows data)) as [st|e] eqn:Hloop;
    [|discriminate Hrun].
  cbn [bind] in Hrun. injection Hrun as <-.
  destruct (agg_loop_keys (sort_rows data) (sort_rows data) agg_init st)
    as [Hstart Htbl]; try assumption.
  - auto.
  - intros k0 H. discriminate H.
  - intros k0 b [].
  - unfold keys in Hk. apply in_map_iff in Hk as ([k0 b] & <- & Hin).
    cbn [fst].
    assert (H : exists r, In r (sort_rows data) /\ time_of r = Some k0
                          /\ start_time <= k0 <= end_time).
    { unfold agg_finish in Hin.
      destruct (open (current_ohlcv st)); [|now apply (Htbl k0 b)].
      destruct (interval_start st) as [k1|]; [|now apply (Htbl k0 b)].
      apply dict_set_In in Hin as [[= -> ->]|Hin];
        [now apply Hstart | now apply (Htbl k0 b)]. }
    destruct H as (r & Hr & Ht & Hw). exists r.
    split; [now apply sort_rows_In | now split].
Qed.

(** X15.  When the first record of the window, in the order of
    processing, lies so that its instant plus the interval is no date of
    the years 1 to 9999, the call raises OverflowError. *)
Theorem aggregate_ohlcv_overflow
    (data rest : list clean_row) (r : clean_row) (t : datetime) :
  (forall x, In x data -> exists tx, time_of x = Some tx) ->
  List.filter inside' (sort_rows data) = r :: rest ->
  time_of r = Some t ->
  t + interval < 0 \/ datetime_max < t + interval ->
  snd (aggregate_ohlcv data interval start_time end_time)
  = Raise OverflowError.
Proof.
  intros Hparse Hfilter Ht Hout. unfold aggregate_ohlcv. cbn [snd].
  rewrite (agg_loop_window interval start_time end_time).
  2: { intros x Hx. apply Hparse. now apply sort_rows_In. }
  rewrite Hfilter. cbn [agg_loop].
  assert (Hw : inside' r = true).
  { assert (Hin : In r (List.filter inside' (sort_rows data)))
      by (rewrite Hfilter; now left).
    now apply List.filter_In in Hin as [_ Hin]. }
  apply inside_spec in Hw as (t' & Ht' & Hw). rewrite Ht in Ht'.
  injection Ht' as <-.
  rewrite (agg_step_inside _ _ _ agg_init r t Ht Hw). cbv zeta.
  cbn [interval_start agg_init]. unfold datetime_add.
  destruct (Z.ltb_spec (t + interval) 0),
    (Z.ltb_spec datetime_max (t + interval));
    try reflexivity; lia.
Qed.
End Aggregation_more.

(** ** Intervals that do not overlap, and what they hold *)

Lemma dict_set_fresh (k : datetime) (v : ohlcv) (tbl : table) :
  (forall k' b, In (k', b) tbl -> k' <> k) ->
  dict_set k v tbl = tbl ++ [(k, v)].
Proof.
  induction tbl as [|[k1 v1] tbl IH]; intros H; cbn [dict_set app].
  - reflexivity.
  - destruct (Z.eqb_spec k k1) as [->|_].
    + exfalso. now apply (H k1 v1 (or_introl eq_refl)).
    + rewrite IH; [reflexivity|]. intros k' b Hin. apply (H k' b). now right.
Qed.

Lemma spaced_snoc (interval : timedelta) (tbl : table)
    (k : datetime) (v : ohlcv) :
  spaced interval tbl ->
  (forall k' b, In (k', b) tbl -> k' + interval <= k) ->
  spaced interval (tbl ++ [(k, v)]).
Proof.
  unfold spaced. induction 1 as [|[k1 v1] tbl Hs IH Hall]; intros H.
  - cbn [app]. repeat constructor.
  - cbn [app]. constructor.
    + apply IH. intros k' b Hin. apply (H k' b). now right.
    + rewrite List.Forall_forall in *. intros [k2 v2] Hin.
      apply in_app_or in Hin as [Hin|[[= <- <-]|[]]].
      * now apply Hall.
      * cbn [fst]. apply (H k1 v1). now left.
Qed.

Lemma total_volume_snoc (tbl : table) (k : datetime) (v : ohlcv) :
  total_volume (tbl ++ [(k, v)]) = total_volume tbl + volume v.
Proof.
  unfold total_volume. induction tbl as [|[k1 v1] tbl IH]; cbn in *; lia.
Qed.

Lemma total_size_snoc (l : list clean_row) (r : clean_row) :
  total_size (l ++ [r]) = total_size l + size_of r.
Proof.
  unfold total_size. induction l as [|a l IH]; cbn in *; lia.
Qed.

Lemma total_size_permutation (l l' : list clean_row) :
  Permutation l l' -> total_size l = total_size l'.
Proof.
  unfold total_size. induction 1; cbn in *; lia.
Qed.

Lemma filter_permutation {A : Type} (f : A -> bool) (l l' : list A) :
  Permutation l l' -> Permutation (List.filter f l) (List.filter f l').
Proof.
  induction 1 as [|x l l' H IH|x y l|l l' l'' H1 IH1 H2 IH2];
    cbn [List.filter].
  - constructor.
  - destruct (f x); [now constructor | assumption].
  - destruct (f x), (f y); try reflexivity. apply perm_swap.
  - now transitivity (List.filter f l').
Qed.

Section Spacing.
Context {RT : Runtime}.
Variable interval : timedelta.
Variables start_time end_time : datetime.

(** One record of the window keeps the bars apart and the sizes counted
    once. *)
Lemma agg_step_spaced (done : list clean_row) (r : clean_row) (t : datetime)
    (st st' : agg_state) :
  0 < interval -> agg_inv interval done st ->
  spaced interval (ohlcv_data st) ->
  total_volume (ohlcv_data st) + volume (current_ohlcv st) = total_size done ->
  time_of r = Some t -> start_time <= t <= end_time ->
  agg_step interval start_time end_time st r = Ok st' ->
  spaced interval (ohlcv_data st')
  /\ total_volume (ohlcv_data st') + volume (current_ohlcv st')
     = total_size (done ++ [r]).
Proof.
  intros Hpos Hinv Hsp Hvol Ht Hwin Hstep.
  rewrite (agg_step_inside _ _ _ st r t Ht Hwin) in Hstep. cbv zeta in Hstep.
  rewrite total_size_snoc. unfold agg_inv in Hinv.
  destruct (datetime_add _ interval) as [bound|e]; [|discriminate Hstep].
  cbn [bind] in Hstep. injection Hstep as <-.
  destruct (bound <=? t); cbn [ohlcv_data current_ohlcv update_ohlcv volume].
  - destruct (interval_start st) as [k|].
    + destruct Hinv as (_ & _ & _ & _ & Htbl).
      rewrite dict_set_fresh.
      * split.
        -- apply spaced_snoc; [assumption|].
           intros k' b Hin. now apply (Htbl k' b).
        -- rewrite total_volume_snoc. cbn [fresh_ohlcv volume]. lia.
      * intros k' b Hin. destruct (Htbl k' b Hin) as [Hk _]. lia.
    + destruct Hinv as [-> ->]. cbn [agg_init ohlcv_data current_ohlcv] in *.
      cbn [dict_set]. split; [repeat constructor|].
      unfold total_volume, total_size in *. cbn in *. lia.
  - split; [assumption | lia].
Qed.

Lemma agg_loop_spaced (rest done : list clean_row) (st st' : agg_state) :
  0 < interval -> agg_inv interval done st ->
  spaced interval (ohlcv_data st) ->
  total_volume (ohlcv_data st) + volume (current_ohlcv st) = total_size done ->
  (forall r, In r rest -> in_window start_time end_time r = true) ->
  StronglySorted not_later rest ->
  (forall x y, In x done -> In y rest -> not_later x y) ->
  agg_loop interval start_time end_time st rest = Ok st' ->
  agg_inv interval (done ++ rest) st'
  /\ spaced interval (ohlcv_data st')
  /\ total_volume (ohlcv_data st') + volume (current_ohlcv st')
     = total_size (done ++ rest).
Proof.
  intros Hpos. revert done st.
  induction rest as [|r rest IH];
    intros done st Hinv Hsp Hvol Hin Hs Hord Hloop.
  - cbn [agg_loop] in Hloop. injection Hloop as <-. now rewrite app_nil_r.
  - cbn [agg_loop] in Hloop.
    destruct (agg_step interval start_time end_time st r) as [st1|e] eqn:E;
      [|discriminate Hloop].
    cbn [bind] in Hloop.
    destruct (proj1 (inside_spec _ _ r) (Hin r (or_introl eq_refl)))
      as (t & Ht & Hwin).
    apply StronglySorted_inv in Hs as [Hs Hall].
    replace (done ++ r :: rest) with ((done ++ [r]) ++ rest)
      by (now rewrite <- app_assoc).
    destruct (agg_step_spaced done r t st st1) as [Hsp1 Hvol1];
      try assumption.
    apply (IH (done ++ [r]) st1); try assumption.
    + apply (agg_step_inv interval start_time end_time done r t st st1);
        try assumption.
      intros x tx Hx Ex. apply (not_later_le x r tx t); try assumption.
      apply Hord; [assumption | now left].
    + intros x Hx. apply Hin. now right.
    + intros x y Hx Hy. apply in_app_or in Hx as [Hx|[<-|[]]].
      * apply Hord; [assumption | now right].
      * rewrite List.Forall_forall in Hall. now apply Hall.
Qed.

(** The table for a positive interval and records in chronological
    order: bars apart, and the sizes of the window counted once. *)
Lemma aggregate_spaced (data : list clean_row) (tbl : table) :
  0 < interval -> chronological data ->
  snd (aggregate_ohlcv data interval start_time end_time) = Ok tbl ->
  spaced interval tbl
  /\ total_volume tbl
     = total_size (List.filter (in_window start_time end_time)
                     (sort_rows data)).
Proof.
  intros Hpos Hchr Hrun.
  destruct (sealed_bars_accumulate interval start_time end_time data tbl
              Hpos Hchr Hrun) as [Hsorted _].
  unfold aggregate_ohlcv in Hrun. cbn [snd] in Hrun.
  destruct (agg_loop interval start_time end_time agg_init (sort_rows data))
    as [st|e] eqn:Hloop; [|discriminate Hrun].
  cbn [bind] in Hrun. injection Hrun as <-.
  pose proof (agg_loop_parsed _ _ _ _ _ _ Hloop) as Hparse.
  rewrite (agg_loop_window _ _ _ _ _ Hparse) in Hloop.
  apply (agg_loop_spaced _ [] agg_init st Hpos) in Hloop.
  - cbn [app] in Hloop. destruct Hloop as (Hinv & Hsp & Hvol).
    unfold agg_inv in Hinv. unfold agg_finish.
    destruct (interval_start st) as [k|].
    + destruct Hinv as (_ & Hcur & Hne & _ & Htbl).
      assert (Hopen : open (current_ohlcv st) <> None).
      { rewrite Hcur, accumulate_open. cbn [open fresh_ohlcv].
        destruct (List.filter (in_interval interval k) _); [contradiction|].
        discriminate. }
      destruct (open (current_ohlcv st)); [|contradiction].
      rewrite dict_set_fresh.
      * split; [|rewrite total_volume_snoc; exact Hvol].
        apply spaced_snoc; [assumption|].
        intros k' b Hin. now apply (Htbl k' b).
      * intros k' b Hin. destruct (Htbl k' b Hin) as [Hk _]. lia.
    + destruct Hinv as [Hnil ->]. rewrite Hnil.
      cbn. split; [constructor | reflexivity].
  - split; reflexivity.
  - constructor.
  - reflexivity.
  - intros r Hr. now apply List.filter_In in Hr as [_ Hr].
  - now apply StronglySorted_filter.
  - intros x y [].
Qed.

(** X16.  For a positive interval and timestamp texts in the order of
    their instants, the bars are stored in the order of time and their
    intervals do not overlap: a bar stored after another starts at least
    one interval later, so that no key occurs twice. *)
Theorem bars_do_not_overlap (data : list clean_row) (tbl : table) :
  0 < interval -> chronological data ->
  snd (aggregate_ohlcv data interval start_time end_time) = Ok tbl ->
  spaced interval tbl
  /\ (forall pre k1 b1 mid k2 b2 post,
        tbl = pre ++ (k1, b1) :: mid ++ (k2, b2) :: post ->
        k1 + interval <= k2)
  /\ List.NoDup (keys tbl).
Proof.
  intros Hpos Hchr Hrun.
  destruct (aggregate_spaced data tbl Hpos Hchr Hrun) as [Hsp _].
  split; [exact Hsp|]. split.
  - intros pre k1 b1 mid k2 b2 post ->. unfold spaced in Hsp.
    clear -Hsp. induction pre as [|x pre IH]; cbn [app] in Hsp.
    + apply StronglySorted_inv in Hsp as [_ Hall].
      rewrite List.Forall_forall in Hall.
      apply (Hall (k2, b2)). apply in_or_app. right. now left.
    + apply StronglySorted_inv in Hsp as [Hsp _]. now apply IH.
  - unfold spaced in Hsp. unfold keys. clear -Hsp Hpos.
    induction Hsp as [|[k v] tbl Hs IH Hall]; cbn [map fst]; constructor.
    + intros Hin. apply in_map_iff in Hin as ([k' v'] & E & Hin).
      cbn [fst] in E. subst k'. rewrite List.Forall_forall in Hall.
      specialize (Hall (k, v') Hin). cbn [fst] in Hall. lia.
    + exact IH.
Qed.

(** X17.  For a positive interval and timestamp texts in the order of
    their instants, the volumes of the bars add up to the sizes of the
    records of the list that lie within the window: no size is left out or
    counted twice. *)
Theorem volume_is_conserved (data : list clean_row) (tbl : table) :
  0 < interval -> chronological data ->
  snd (aggregate_ohlcv data interval start_time end_time) = Ok tbl ->
  total_volume tbl
  = total_size (List.filter (in_window start_time end_time) data).
Proof.
  intros Hpos Hchr Hrun.
  destruct (aggregate_spaced data tbl Hpos Hchr Hrun) as [_ ->].
  apply total_size_permutation, filter_permutation, sort_rows_permutation.
Qed.

(** X18.  For a positive interval, timestamp texts in the order of their
    instants and prices none of which is a NaN, every bar has an open and a
    close, both between its low and its high. *)
Theorem bars_open_close_within_range (data : list clean_row) (tbl : table) :
  0 < interval -> chronological data ->
  (forall r, In r data -> is_nan (price_of r) = false) ->
  snd (aggregate_ohlcv data interval start_time end_time) = Ok tbl ->
  forall k bar, In (k, bar) tbl ->
    exists o c,
      open bar = Some o /\ close bar = Some c
      /\ fle (low bar) o = true /\ fle o (high bar) = true
      /\ fle (low bar) c = true /\ fle c (high bar) = true
      /\ fle (low bar) (high bar) = true.
Proof.
  intros Hpos Hchr Hnan Hrun k bar Hin.
  destruct (sealed_bars_accumulate interval start_time end_time data tbl
              Hpos Hchr Hrun) as [_ Hbars].
  destruct (Hbars k bar Hin) as [Hne ->]. clear Hbars.
  set (g := assigned interval start_time end_time k data) in *.
  assert (Hgnan : forall r, In r g -> is_nan (price_of r) = false).
  { intros r Hr. apply Hnan. unfold g, assigned in Hr.
    apply List.filter_In in Hr as [Hr _]. now apply sort_rows_In. }
  destruct (accumulate_extremes g Hne Hgnan) as [[_ Hmax] [_ Hmin]].
  destruct g as [|first g'] eqn:Eg; [contradiction|].
  destruct (last (first :: g')) as [final|] eqn:Elast;
    [|apply last_None in Elast; discriminate Elast].
  assert (Hfirst : In (price_of first) (map price_of (first :: g')))
    by now left.
  assert (Hfinal : In (price_of final) (map price_of (first :: g'))).
  { apply in_map. apply list_elem_of_In. now apply last_Some_elem_of. }
  exists (price_of first), (price_of final).
  repeat split.
  - now rewrite accumulate_open.
  - now rewrite accumulate_close, Elast.
  - now apply Hmin.
  - now apply Hmax.
  - now apply Hmin.
  - now apply Hmax.
  - eapply fle_trans; [apply Hmin | apply Hmax]; exact Hfirst.
Qed.
End Spacing.

(** ** An interval that is not positive *)

Section Not_positive.
Context {RT : Runtime}.
Variable interval : timedelta.
Variables start_time end_time : datetime.

Lemma bar_per_record_snoc (l : list clean_row) (r : clean_row) (t : datetime) :
  time_of r = Some t ->
  bar_per_record (l ++ [r]) = dict_set t (single_bar r) (bar_per_record l).
Proof.
  intros Ht. unfold bar_per_record. rewrite fold_left_app. cbn [fold_left].
  now rewrite Ht.
Qed.

Lemma dict_set_twice (k : datetime) (v w : ohlcv) (tbl : table) :
  dict_set k w (dict_set k v tbl) = dict_set k w tbl.
Proof.
  induction tbl as [|[k1 v1] tbl IH]; cbn [dict_set].
  - now rewrite Z.eqb_refl.
  - destruct (Z.eqb_spec k k1) as [->|Hne]; cbn [dict_set].
    + now rewrite Z.eqb_refl.
    + destruct (Z.eqb_spec k k1); [contradiction|]. now rewrite IH.
Qed.

Lemma agg_step_single (done : list clean_row) (r : clean_row) (t : datetime)
    (st st' : agg_state) :
  interval <= 0 -> agg_inv_single done st ->
  time_of r = Some t -> start_time <= t <= end_time ->
  (forall x, In x done -> not_later x r) ->
  agg_step interval start_time end_time st r = Ok st' ->
  agg_inv_single (done ++ [r]) st'.
Proof.
  intros Hneg Hinv Ht Hwin Hord Hstep.
  rewrite (agg_step_inside _ _ _ st r t Ht Hwin) in Hstep. cbv zeta in Hstep.
  unfold agg_inv_single in *. rewrite last_snoc.
  destruct (last done) as [r0|] eqn:Elast.
  - destruct Hinv as (k & Hk & Hstart & Hcur & Htbl).
    rewrite Hstart in Hstep. unfold datetime_add in Hstep.
    destruct (_ || _); [discriminate Hstep|]. cbn [bind] in Hstep.
    assert (Hkt : k <= t).
    { apply (not_later_le r0 r k t); try assumption.
      apply Hord. apply list_elem_of_In. now apply last_Some_elem_of. }
    destruct (Z.leb_spec (k + interval) t); [|lia].
    injection Hstep as <-. exists t.
    cbn [interval_start current_ohlcv ohlcv_data].
    repeat split; try assumption.
    rewrite (bar_per_record_snoc done r t Ht), <- Htbl, Hcur. reflexivity.
  - subst st. cbn [interval_start agg_init] in Hstep.
    unfold datetime_add in Hstep.
    destruct (_ || _); [discriminate Hstep|]. cbn [bind] in Hstep.
    destruct (Z.leb_spec (t + interval) t); [|lia].
    injection Hstep as <-. exists t.
    cbn [interval_start current_ohlcv ohlcv_data agg_init].
    repeat split; try assumption.
    apply last_None in Elast. subst done.
    rewrite (bar_per_record_snoc [] r t Ht). cbn [bar_per_record fold_left].
    exact (dict_set_twice t fresh_ohlcv (single_bar r) []).
Qed.

Lemma agg_loop_single (rest done : list clean_row) (st st' : agg_state) :
  interval <= 0 -> agg_inv_single done st ->
  (forall r, In r rest -> in_window start_time end_time r = true) ->
  StronglySorted not_later rest ->
  (forall x y, In x done -> In y rest -> not_later x y) ->
  agg_loop interval start_time end_time st rest = Ok st' ->
  agg_inv_single (done ++ rest) st'.
Proof.
  intros Hneg. revert done st.
  induction rest as [|r rest IH]; intros done st Hinv Hin Hs Hord Hloop.
  - cbn [agg_loop] in Hloop. injection Hloop as <-. now rewrite app_nil_r.
  - cbn [agg_loop] in Hloop.
    destruct (agg_step interval start_time end_time st r) as [st1|e] eqn:E;
      [|discriminate Hloop].
    cbn [bind] in Hloop.
    destruct (proj1 (inside_spec _ _ r) (Hin r (or_introl eq_refl)))
      as (t & Ht & Hwin).
    apply StronglySorted_inv in Hs as [Hs Hall].
    replace (done ++ r :: rest) with ((done ++ [r]) ++ rest)
      by (now rewrite <- app_assoc).
    apply (IH (done ++ [r]) st1); try assumption.
    + apply (agg_step_single done r t st st1); try assumption.
      intros x Hx. apply Hord; [assumption | now left].
    + intros x Hx. apply Hin. now right.
    + intros x y Hx Hy. apply in_app_or in Hx as [Hx|[<-|[]]].
      * apply Hord; [assumption | now right].
      * rewrite List.Forall_forall in Hall. now apply Hall.
Qed.

(** X19.  For an interval that is zero or negative, such as the ["-5m"]
    that the prompt accepts, and timestamp texts in the order of their
    instants: every record of the window gets a bar of its own under its
    instant, holding its price four times and its size; of two records at
    one instant the later one replaces the bar of the earlier. *)
Theorem bar_per_record_when_not_positive (data : list clean_row) (tbl : table) :
  interval <= 0 -> chronological data ->
  snd (aggregate_ohlcv data interval start_time end_time) = Ok tbl ->
  tbl = bar_per_record
          (List.filter (in_window start_time end_time) (sort_rows data))
  /\ forall k bar, In (k, bar) tbl ->
       exists r, In r data /\ time_of r = Some k
         /\ bar = {| open := Some (price_of r);
                     high := py_max neg_inf (price_of r);
                     low := py_min pos_inf (price_of r);
                     close := Some (price_of r);
                     volume := size_of r |}.
Proof.
  intros Hneg Hchr Hrun. unfold aggregate_ohlcv in Hrun. cbn [snd] in Hrun.
  destruct (agg_loop interval start_time end_time agg_init (sort_rows data))
    as [st|e] eqn:Hloop; [|discriminate Hrun].
  cbn [bind] in Hrun. injection Hrun as <-.
  pose proof (agg_loop_parsed _ _ _ _ _ _ Hloop) as Hparse.
  assert (Hsorted : StronglySorted not_later (sort_rows data)).
  { apply chronological_sorted; [assumption|].
    intros r Hr. apply Hparse. now apply sort_rows_In. }
  rewrite (agg_loop_window _ _ _ _ _ Hparse) in Hloop.
  set (W := List.filter (in_window start_time end_time) (sort_rows data)) in *.
  apply (agg_loop_single _ [] agg_init st Hneg) in Hloop.
  - cbn [app] in Hloop.
    assert (E : agg_finish st = bar_per_record W).
    { unfold agg_inv_single in Hloop. unfold agg_finish.
      destruct (last W) as [r|] eqn:Elast.
      - destruct Hloop as (k & Hk & Hstart & Hcur & Htbl).
        rewrite Hstart, Hcur. cbn [single_bar update_ohlcv open fresh_ohlcv].
        rewrite <- Htbl. reflexivity.
      - subst st. apply last_None in Elast. now rewrite Elast. }
    split; [exact E|]. rewrite E. clear E Hloop.
    assert (HW : forall r, In r W -> In r data).
    { intros r Hr. apply List.filter_In in Hr as [Hr _].
      now apply sort_rows_In. }
    clearbody W. clear -HW.
    induction W as [|r W IH] using rev_ind; [intros k bar []|].
    intros k bar Hin. unfold bar_per_record in Hin.
    rewrite fold_left_app in Hin. cbn [fold_left] in Hin.
    fold (bar_per_record W) in Hin.
    assert (Hold : forall r0, In r0 W -> In r0 data)
      by (intros r0 H0; apply HW, in_or_app; now left).
    destruct (time_of r) as [t|] eqn:Et; [|now apply (IH Hold)].
    apply dict_set_In in Hin as [[= -> ->]|Hin]; [|now apply (IH Hold)].
    exists r. split; [apply HW, in_or_app; right; now left|].
    split; [exact Et|]. unfold single_bar, update_ohlcv.
    cbn [open high low volume fresh_ohlcv]. reflexivity.
  - reflexivity.
  - intros r Hr. now apply List.filter_In in Hr as [_ Hr].
  - now apply StronglySorted_filter.
  - intros x y [].
Qed.
End Not_positive.

(** ** The whole run *)

Section Run.
Context {RT : Runtime}.










End Run.

(** ** The files that are read *)

Lemma startswith_spec (p s : string) :
  startswith p s = true <-> exists rest, s = (p ++ rest)%string.
Proof.
  revert s; induction p as [|a p IH]; intros s.
  - split; [intros _; now exists s | reflexivity].
  - destruct s as [|b s].
    + split; [discriminate | intros [rest H]; discriminate H].
    + cbn [startswith]. rewrite andb_true_iff, IH. split.
      * intros [Hab [rest ->]]. apply Ascii.eqb_eq in Hab as ->.
        now exists rest.
      * intros [rest H]. rewrite append_cons in H. injection H as -> ->.
        split; [apply Ascii.eqb_refl | now exists rest].
Qed.

Lemma endswith_spec (q s : string) :
  endswith q s = true <-> exists pre, s = (pre ++ q)%string.
Proof.
  induction s as [|b s IH].
  - cbn [endswith]. destruct (String.eqb_spec "" q) as [<-|Hne].
    + split; [intros _; now exists "" | reflexivity].
    + split; [discriminate|]. intros [pre H]. destruct pre as [|x pre].
      * rewrite append_nil in H. now subst.
      * rewrite append_cons in H. discriminate H.
  - cbn [endswith]. destruct (String.eqb_spec (String b s) q) as [<-|Hne].
    + split; [intros _; now exists "" | reflexivity].
    + rewrite IH. split.
      * intros [pre ->]. exists (String b pre). now rewrite append_cons.
      * intros [pre H]. destruct pre as [|x pre].
        -- rewrite append_nil in H. now subst.
        -- rewrite append_cons in H. injection H as -> ->. now exists pre.
Qed.

(** A first character that is not the first of [q] is no part of the
    ending [q]. *)
Lemma endswith_skip (q0 c : ascii) (q s : string) :
  c <> q0 -> endswith (String q0 q) (String c s) = endswith (String q0 q) s.
Proof.
  intros H. cbn [endswith String.eqb].
  destruct (Ascii.eqb_spec c q0); [contradiction | reflexivity].
Qed.

(** X22.  A file name passes the test of [find_csv_files] exactly when it
    is [ctg_tick_], any text, and [.csv]; the paths yielded are those of
    the passing names of the walk, each joined to its directory, and no
    others. *)
Theorem find_csv_files_spec
    (walk : list (string * list string * list string)) (path : string) :
  (forall name,
     is_tick_file name = true
     <-> exists mid, name = ("ctg_tick_" ++ mid ++ ".csv")%string)
  /\ (In path (find_csv_files walk)
      <-> exists root dirs files name,
            In (root, dirs, files) walk /\ In name files
            /\ is_tick_file name = true /\ path = path_join root name).
Proof.
  split.
  - intros name. unfold is_tick_file.
    rewrite andb_true_iff, startswith_spec. split.
    + intros [[rest ->] Hend].
      rewrite !append_cons, append_nil in Hend.
      rewrite !endswith_skip in Hend by discriminate.
      apply endswith_spec in Hend as [mid ->]. now exists mid.
    + intros [mid ->]. split; [now exists (mid ++ ".csv")%string|].
      apply endswith_spec. exists ("ctg_tick_" ++ mid)%string.
      now rewrite append_assoc.
  - induction walk as [|[[root dirs] files] walk IH]; cbn [find_csv_files].
    + split; [intros [] | intros (r & d & f & n & [] & _)].
    + rewrite in_app_iff, in_map_iff, IH. split.
      * intros [(name & <- & Hin)|(r & d & f & n & Hw & Hn & Ht & ->)].
        -- apply List.filter_In in Hin as [Hin Ht].
           exists root, dirs, files, name. repeat split; try assumption.
           now left.
        -- exists r, d, f, n. repeat split; try assumption. now right.
      * intros (r & d & f & n & [[= -> -> ->]|Hw] & Hn & Ht & ->).
        -- left. exists n. split; [reflexivity|].
           apply List.filter_In. now split.
        -- right. exists r, d, f, n. now repeat split.
Qed.

(** ** The further properties on the sample data *)

Lemma cleaned_record_bounds_witness :
  (exists t, time_of (RT := cpython)
               ("2024-01-01 09:30:02.000000", float_of_Z 100, 4) = Some t)
  /\ 0 <= 4
  /\ (is_nan (float_of_Z 100) = false ->
      fle (float_of_Z 100) (float_of_Z 100) = true
      /\ flt (float_of_Z 0) (float_of_Z 100) = true).
Proof.
  apply (cleaned_record_bounds (RT := cpython) Samples.row_floor ∅
           ("2024-01-01 09:30:02.000000", float_of_Z 100, 4)).
  vm_compute. reflexivity.
Defined.

Lemma parse_interval_parts_witness :
  parse_interval (RT := cpython) "2h30m"
  = (days <- Ok 0 ;;
     hours <- int_or_raise (RT := cpython) "2" ;;
     minutes <- int_or_raise (RT := cpython) "30" ;;
     seconds <- Ok 0 ;;
     mk_timedelta days hours minutes seconds).
Proof.
  apply (parse_interval_parts (RT := cpython) None (Some "2") (Some "30")
           None); reflexivity.
Defined.

Lemma parse_interval_without_unit_witness :
  parse_interval (RT := cpython) "15" = Ok 0
  /\ forall line stdin,
       py_lower (py_strip line) = "15" ->
       get_interval_input (RT := cpython) (line :: stdin)
       = get_interval_input (RT := cpython) stdin.
Proof.
  apply (parse_interval_without_unit (RT := cpython) "15"). reflexivity.
Defined.

Lemma sample_ticks_parse (r : clean_row) :
  In r Samples.ticks ->
  exists t, time_of (RT := cpython) r = Some t
            /\ 63839698205000000 <= t <= 63839698270000000.
Proof.
  intros Hr.
  repeat (destruct Hr as [<-|Hr];
          [eexists; split; [vm_compute; reflexivity | split; discriminate]|]).
  destruct Hr.
Defined.

Lemma aggregate_ohlcv_nothing_in_window_witness :
  aggregate_ohlcv (RT := cpython) Samples.ticks Samples.minute
    (Samples.jan1 10 0 0) (Samples.jan1 11 0 0)
  = (sort_rows Samples.ticks, Ok []).
Proof.
  apply (aggregate_ohlcv_nothing_in_window (RT := cpython)).
  intros r Hr. destruct (sample_ticks_parse r Hr) as (t & Ht & Hlo & Hhi).
  exists t. split; [exact Ht|]. left.
  apply (Z.le_lt_trans _ _ _ Hhi). reflexivity.
Defined.

Lemma sample_two_bars_run :
  snd (aggregate_ohlcv (RT := cpython) Samples.ticks Samples.minute
         (Samples.jan1 9 30 0) (Samples.jan1 9 32 0))
  = Ok MoreSamples.two_bars.
Proof. vm_compute. reflexivity. Defined.

Lemma bars_keyed_by_records_witness :
  exists r, In r Samples.ticks
    /\ time_of (RT := cpython) r = Some 63839698270000000
    /\ Samples.jan1 9 30 0 <= 63839698270000000 <= Samples.jan1 9 32 0.
Proof.
  apply (bars_keyed_by_records (RT := cpython) Samples.minute
           (Samples.jan1 9 30 0) (Samples.jan1 9 32 0) Samples.ticks
           MoreSamples.two_bars sample_two_bars_run).
  right. left. reflexivity.
Defined.

Lemma aggregate_ohlcv_overflow_witness :
  snd (aggregate_ohlcv (RT := cpython) Samples.ticks MoreSamples.longest
         (Samples.jan1 9 30 0) (Samples.jan1 9 32 0))
  = Raise OverflowError.
Proof.
  apply (aggregate_ohlcv_overflow (RT := cpython) MoreSamples.longest
           (Samples.jan1 9 30 0) (Samples.jan1 9 32 0) Samples.ticks
           (tl Samples.ticks)
           ("2024-01-01 09:30:05.000000", float_of_Z 100, 1)
           63839698205000000).
  - intros x Hx. destruct (sample_ticks_parse x Hx) as (t & Ht & _).
    now exists t.
  - vm_compute. reflexivity.
  - vm_compute. reflexivity.
  - right. vm_compute. reflexivity.
Defined.

Lemma bars_do_not_overlap_witness :
  spaced Samples.minute MoreSamples.two_bars
  /\ (forall pre k1 b1 mid k2 b2 post,
        MoreSamples.two_bars = pre ++ (k1, b1) :: mid ++ (k2, b2) :: post ->
        k1 + Samples.minute <= k2)
  /\ List.NoDup (keys MoreSamples.two_bars).
Proof.
  apply (bars_do_not_overlap (RT := cpython) Samples.minute
           (Samples.jan1 9 30 0) (Samples.jan1 9 32 0) Samples.ticks
           MoreSamples.two_bars).
  - reflexivity.
  - exact sample_ticks_chronological.
  - exact sample_two_bars_run.
Defined.

Lemma volume_is_conserved_witness :
  total_volume MoreSamples.two_bars
  = total_size
      (List.filter
         (in_window (RT := cpython) (Samples.jan1 9 30 0)
            (Samples.jan1 9 32 0))
         Samples.ticks).
Proof.
  apply (volume_is_conserved (RT := cpython) Samples.minute
           (Samples.jan1 9 30 0) (Samples.jan1 9 32 0) Samples.ticks
           MoreSamples.two_bars).
  - reflexivity.
  - exact sample_ticks_chronological.
  - exact sample_two_bars_run.
Defined.

Lemma bars_open_close_within_range_witness :
  let bar :=
    {| open := Some (float_of_Z 100); high := float_of_Z 105;
       low := float_of_Z 100; close := Some (float_of_Z 105);
       volume := 3 |} in
  exists o c,
    open bar = Some o /\ close bar = Some c
    /\ fle (low bar) o = true /\ fle o (high bar) = true
    /\ fle (low bar) c = true /\ fle c (high bar) = true
    /\ fle (low bar) (high bar) = true.
Proof.
  apply (bars_open_close_within_range (RT := cpython) Samples.minute
           (Samples.jan1 9 30 0) (Samples.jan1 9 32 0) Samples.ticks
           MoreSamples.two_bars
           ltac:(reflexivity) sample_ticks_chronological
           ltac:(intros r Hr;
                 repeat (destruct Hr as [<-|Hr]; [reflexivity|]);
                 destruct Hr)
           sample_two_bars_run 63839698205000000).
  left. reflexivity.
Defined.

Lemma bar_per_record_when_not_positive_witness :
  MoreSamples.three_bars
  = bar_per_record (RT := cpython)
      (List.filter
         (in_window (RT := cpython) (Samples.jan1 9 30 0)
            (Samples.jan1 9 32 0))
         (sort_rows Samples.ticks))
  /\ forall k bar, In (k, bar) MoreSamples.three_bars ->
       exists r, In r Samples.ticks /\ time_of (RT := cpython) r = Some k
         /\ bar = {| open := Some (price_of r);
                     high := py_max neg_inf (price_of r);
                     low := py_min pos_inf (price_of r);
                     close := Some (price_of r);
                     volume := size_of r |}.
Proof.
  apply (bar_per_record_when_not_positive (RT := cpython)
           (- (5 * 60 * us_per_second))
           (Samples.jan1 9 30 0) (Samples.jan1 9 32 0) Samples.ticks
           MoreSamples.three_bars).
  - discriminate.
  - exact sample_ticks_chronological.
  - vm_compute. reflexivity.
Defined.

